(** * Guard-X front end: transport session, overlay renderer, admin
      aggregator and camera client.

    A shallow embedding of
      - [src/utils/socket.js]            (module [Socket]),
      - the VideoTile component          (module [VideoTile]),
      - [src/pages/AdminDashboard.jsx]   (module [AdminDashboard]),
      - [src/pages/CameraClient.jsx]     (module [CameraClient]),
    followed by the properties established for them.

    Conventions.  Every handler of the JavaScript code is a function from
    the state before the handler runs to the state after it has returned:
    the event loop is single threaded, so a handler is atomic.  React
    state setters called inside one handler are batched; the model applies
    them in call order, each updater running once (production mode).
    Mutable references ([useRef]) and module variables are fields of the
    state.  Things owned by the browser (sockets, timers, media streams,
    the console) are fields too, so that their fate can be stated. *)

From Stdlib Require Import ZArith QArith String List.
From stdpp Require Import gmap strings list fin_maps.

Local Open Scope Z_scope.
Local Open Scope string_scope.

(** JavaScript truthiness of the values that occur in the code. *)
Definition truthy_str (s : string) : bool :=
  match s with EmptyString => false | _ => true end.

Definition truthy_opt_str (s : option string) : bool :=
  match s with Some t => truthy_str t | None => false end.

(** [n || d] for a number [n]. *)
Definition Z_or (n d : Z) : Z := if Z.eqb n 0 then d else n.

(** Console output, one entry per call, arguments in order. *)
Inductive ConsoleEntry :=
| ConsoleLog (args : list string)
| ConsoleError (args : list string).

(* ================================================================== *)
(** ** [src/utils/socket.js] *)
(* ================================================================== *)
Module Socket.
Section WithPayload.
(** The type of event payloads, and the endpoint the module computed
    when it was loaded. *)
Context {Data : Type}.
Variable SOCKET_URL : string.

(** A Socket.IO client object as far as the module looks at it.
    [io_auth] is the token it was constructed with, [io_listeners] the
    events [socket.on] was called for, most recent last. *)
Record Client := {
  io_connected : bool;
  io_auth : string;
  io_listeners : list string
}.

(** The module variable [socket] holds a reference: clients live in a
    heap, and [handshakes] counts the calls of the constructor [io]. *)
Record State := {
  socket : option nat;
  heap : gmap nat Client;
  handshakes : nat;
  wire : list (nat * string * Data);
  console : list ConsoleEntry
}.

Definition initial : State :=
  {| socket := None; heap := ∅; handshakes := 0%nat; wire := []; console := [] |}.

Definition say (e : ConsoleEntry) (st : State) : State :=
  {| socket := socket st; heap := heap st; handshakes := handshakes st;
     wire := wire st; console := console st ++ [e] |}.

(** [socket && socket.connected] *)
Definition socket_connected (st : State) : bool :=
  match socket st with
  | Some h => match heap st !! h with
              | Some c => io_connected c
              | None => false
              end
  | None => false
  end.

(** [io(SOCKET_URL, {...})]: a new client, not yet connected (the
    handshake completes later, see [server_connect]). *)
Definition io (token : string) (st : State) : nat * State :=
  let h := handshakes st in
  (h, {| socket := socket st;
         heap := <[h := {| io_connected := false; io_auth := token;
                           io_listeners := [] |}]> (heap st);
         handshakes := S h;
         wire := wire st; console := console st |}).

(** [s.on(event, _)] on the client [h]. *)
Definition on (h : nat) (event : string) (st : State) : State :=
  {| socket := socket st;
     heap := alter (fun c => {| io_connected := io_connected c;
                                io_auth := io_auth c;
                                io_listeners := io_listeners c ++ [event] |}) h (heap st);
     handshakes := handshakes st; wire := wire st; console := console st |}.

Definition set_socket (s : option nat) (st : State) : State :=
  {| socket := s; heap := heap st; handshakes := handshakes st;
     wire := wire st; console := console st |}.

Definition set_connected (h : nat) (b : bool) (st : State) : State :=
  {| socket := socket st;
     heap := alter (fun c => {| io_connected := b; io_auth := io_auth c;
                                io_listeners := io_listeners c |}) h (heap st);
     handshakes := handshakes st; wire := wire st; console := console st |}.

(** The transport completing the handshake of client [h], and losing
    the connection. *)
Definition server_connect (h : nat) (st : State) : State := set_connected h true st.
Definition server_disconnect (h : nat) (st : State) : State := set_connected h false st.

(** [token.substring(0, 20)] *)
Definition substring20 (t : string) : string := String.substring 0 20 t.

(** [connectSocket(token)]; the result is the returned reference,
    [None] for [null]. *)
Definition connectSocket (token : option string) (st : State) : option nat * State :=
  if socket_connected st then
    (socket st, say (ConsoleLog ["🔌 Socket already connected"]) st)
  else
    let st := say (ConsoleLog ["🔌 Connecting to Socket.IO server..."]) st in
    let st := say (ConsoleLog ["   URL:"; SOCKET_URL]) st in
    let st := say (ConsoleLog ["   Token:";
                     match token with
                     | Some t => if truthy_str t then substring20 t ++ "..." else "NO TOKEN!"
                     | None => "NO TOKEN!"
                     end]) st in
    match token with
    | Some t =>
        if truthy_str t then
          let '(h, st) := io t st in
          let st := set_socket (Some h) st in
          let st := on h "connect" st in
          let st := on h "connect_error" st in
          let st := on h "disconnect" st in
          let st := on h "connect_error" st in
          (Some h, st)
        else (None, say (ConsoleError ["❌ Cannot connect: No token provided!"]) st)
    | None => (None, say (ConsoleError ["❌ Cannot connect: No token provided!"]) st)
    end.

(** [disconnectSocket()].  [socket.disconnect()] on a connected client
    closes it and calls its ['disconnect'] listeners before it returns:
    the module's own listener logs the reason here; the listener of the
    page runs in the page's cleanup (see [unmount] and [cleanup]
    below).  On a client that is not connected no listener is called. *)
Definition disconnectSocket (st : State) : State :=
  match socket st with
  | Some h =>
      let st := say (ConsoleLog ["🔌 Disconnecting Socket.IO..."]) st in
      let st := if socket_connected st
                then say (ConsoleLog ["🔌 Socket.IO disconnected:";
                                      "io client disconnect"]) st
                else st in
      set_socket None (set_connected h false st)
  | None => st
  end.


(** [emitEvent(event, data)] *)
Definition emitEvent (event : string) (data : Data) (st : State) : State :=
  if socket_connected st then
    match socket st with
    | Some h =>
        {| socket := socket st; heap := heap st; handshakes := handshakes st;
           wire := wire st ++ [(h, event, data)]; console := console st |}
    | None => st
    end
  else say (ConsoleError ["❌ Socket not connected, cannot emit event:"; event]) st.

(** [onEvent(event, callback)] *)
Definition onEvent (event : string) (st : State) : State :=
  match socket st with
  | Some h => on h event st
  | None => say (ConsoleError ["❌ Socket not initialized, cannot listen to event:"; event]) st
  end.

Definition isConnected (st : State) : bool := socket_connected st.
End WithPayload.
Arguments State : clear implicits.
End Socket.

(* ================================================================== *)
(** ** Detection payloads (the [detection:result] event) *)
(* ================================================================== *)

(** A bounding box [[x1, y1, x2, y2]]; coordinates are pixel numbers. *)
Record Box := { x1 : Z; y1 : Z; x2 : Z; y2 : Z }.

(** [{count, boxes, labels, confidences}].  The payload comes off the
    wire unvalidated, so every field may be missing ([None] stands for
    [undefined]); confidences are rationals. *)
Record DetectionSet := {
  count : option Z;
  boxes : option (list Box);
  labels : option (list string);
  confidences : option (list Q)
}.

(** [{camera_id, camera_sid, frame, detections, timestamp}] *)
Record DetectionPayload := {
  camera_id : string;
  camera_sid : string;
  frame : option string;
  detections : option DetectionSet;
  timestamp : Z
}.

(** [det.detections?.count || 0] *)
Definition count_or_0 (det : DetectionPayload) : Z :=
  match detections det with
  | Some ds => match count ds with Some n => Z_or n 0 | None => 0 end
  | None => 0
  end.

(* ================================================================== *)
(** ** The VideoTile component: frame and overlay rendering *)
(* ================================================================== *)
Module VideoTile.

(** A decoded image. *)
Record Image := { img_width : Z; img_height : Z; img_src : string }.

(** What has been painted on a canvas, oldest first; every primitive
    records the drawing state it was painted with. *)
Inductive Paint :=
| DrawImage (img : Image) (x y : Z)
| StrokeRect (strokeStyle : string) (lineWidth : Z) (x y w h : Z)
| FillRect (fillStyle : string) (x y w h : Z)
| FillText (fillStyle font text : string) (x y : Z).

(** The drawing state of a 2d context. *)
Record Ctx := {
  strokeStyle : string;
  fillStyle : string;
  lineWidth : Z;
  font : string
}.

Definition default_ctx : Ctx :=
  {| strokeStyle := "#000000"; fillStyle := "#000000"; lineWidth := 1;
     font := "10px sans-serif" |}.

Record Canvas := {
  width : Z;
  height : Z;
  has_2d : bool;          (* [getContext('2d')] is not [null] *)
  ctx : Ctx;
  painted : list Paint
}.

(** A handler either returns or lets an exception escape to the event
    dispatcher; the canvas is given as it is at that point. *)
Inductive Outcome :=
| Returned (c : Canvas)
| Uncaught (error : string) (c : Canvas).

(** Assigning [canvas.width] or [canvas.height] clears the bitmap and
    resets the drawing state. *)
Definition set_width (w : Z) (c : Canvas) : Canvas :=
  {| width := w; height := height c; has_2d := has_2d c;
     ctx := default_ctx; painted := [] |}.

Definition set_height (h : Z) (c : Canvas) : Canvas :=
  {| width := width c; height := h; has_2d := has_2d c;
     ctx := default_ctx; painted := [] |}.

Definition with_ctx (k : Ctx) (c : Canvas) : Canvas :=
  {| width := width c; height := height c; has_2d := has_2d c;
     ctx := k; painted := painted c |}.

Definition paint (p : Paint) (c : Canvas) : Canvas :=
  {| width := width c; height := height c; has_2d := has_2d c;
     ctx := ctx c; painted := painted c ++ [p] |}.

(** A value assigned to [strokeStyle] or [fillStyle] that is not a
    colour is ignored by the canvas ([None] below). *)
Definition set_strokeStyle (v : option string) (c : Canvas) : Canvas :=
  match v with
  | Some s => with_ctx {| strokeStyle := s; fillStyle := fillStyle (ctx c);
                          lineWidth := lineWidth (ctx c); font := font (ctx c) |} c
  | None => c
  end.

Definition set_fillStyle (v : option string) (c : Canvas) : Canvas :=
  match v with
  | Some s => with_ctx {| strokeStyle := strokeStyle (ctx c); fillStyle := s;
                          lineWidth := lineWidth (ctx c); font := font (ctx c) |} c
  | None => c
  end.

Definition set_lineWidth (n : Z) (c : Canvas) : Canvas :=
  with_ctx {| strokeStyle := strokeStyle (ctx c); fillStyle := fillStyle (ctx c);
              lineWidth := n; font := font (ctx c) |} c.

Definition set_font (f : string) (c : Canvas) : Canvas :=
  with_ctx {| strokeStyle := strokeStyle (ctx c); fillStyle := fillStyle (ctx c);
              lineWidth := lineWidth (ctx c); font := f |} c.

Definition strokeRect (x y w h : Z) (c : Canvas) : Canvas :=
  paint (StrokeRect (strokeStyle (ctx c)) (lineWidth (ctx c)) x y w h) c.

Definition fillRect (x y w h : Z) (c : Canvas) : Canvas :=
  paint (FillRect (fillStyle (ctx c)) x y w h) c.

Definition fillText (text : string) (x y : Z) (c : Canvas) : Canvas :=
  paint (FillText (fillStyle (ctx c)) (font (ctx c)) text x y) c.

Definition drawImage (img : Image) (x y : Z) (c : Canvas) : Canvas :=
  paint (DrawImage img x y) c.

(** Names every object literal inherits from [Object.prototype]:
    [colorMap[label]] is a truthy non-colour for them. *)
Definition inherited_names : list string :=
  ["constructor"; "__proto__"; "hasOwnProperty"; "isPrototypeOf";
   "propertyIsEnumerable"; "toLocaleString"; "toString"; "valueOf";
   "__defineGetter__"; "__defineSetter__"; "__lookupGetter__";
   "__lookupSetter__"].

(** [colorMap[label] || '#00FF00']; [None] is a value that is not a
    colour. *)
Definition colorMap (label : string) : option string :=
  if String.eqb label "Human" then Some "#FFFF00"
  else if String.eqb label "Weapon" then Some "#FF0000"
  else if String.eqb label "Vehicle" then Some "#0000FF"
  else if existsb (String.eqb label) inherited_names then None
  else Some "#00FF00".

(** [labels[i] || 'Unknown'] and [confidences[i] || 0] on arrays. *)
Definition label_at (ls : list string) (i : nat) : string :=
  match ls !! i with
  | Some l => if truthy_str l then l else "Unknown"
  | None => "Unknown"
  end.

Definition conf_at (cs : list Q) (i : nat) : Q :=
  match cs !! i with
  | Some q => if Qeq_bool q 0 then 0%Q else q
  | None => 0%Q
  end.

Section Browser.
(** Supplied by the browser: the decoder behind [img.src = ...], the
    width [ctx.measureText(text).width] for a font, and the digits
    of [(conf * 100).toFixed(0)] in double arithmetic. *)
Variable decode : string -> option Image.
Variable measureText : string -> string -> Z.
Variable percent : Q -> string.

(** [`${label} ${(conf * 100).toFixed(0)}%`] *)
Definition labelText (label : string) (conf : Q) : string :=
  label ++ " " ++ percent conf ++ "%".

(** The body of the [boxes.forEach] callback. *)
Definition draw_box (ls : list string) (cs : list Q) (c : Canvas)
    (i : nat) (box : Box) : Canvas :=
  let label := label_at ls i in
  let conf := conf_at cs i in
  let color := colorMap label in
  let c := set_strokeStyle color c in
  let c := set_lineWidth 3 c in
  let c := strokeRect (x1 box) (y1 box) (x2 box - x1 box) (y2 box - y1 box) c in
  let labelText := labelText label conf in
  let c := set_font "14px Arial" c in
  let textWidth := measureText (font (ctx c)) labelText in
  let textHeight := 20 in
  let c := set_fillStyle color c in
  let c := fillRect (x1 box) (y1 box - textHeight) (textWidth + 10) textHeight c in
  let c := set_fillStyle (Some "#000000") c in
  fillText labelText (x1 box + 5) (y1 box - 5) c.

(** [boxes.forEach((box, i) => ...)] from index [i] on. *)
Fixpoint forEach_box (ls : list string) (cs : list Q) (bs : list Box)
    (i : nat) (c : Canvas) : Canvas :=
  match bs with
  | [] => c
  | box :: bs' => forEach_box ls cs bs' (S i) (draw_box ls cs c i box)
  end.

(** [drawBoundingBoxes(ctx, detections)].  Indexing [labels] or
    [confidences] when the field is [undefined] throws, in the first
    iteration and before anything is painted. *)
Definition drawBoundingBoxes (ds : DetectionSet) (c : Canvas) : Outcome :=
  match boxes ds with
  | None => Returned c
  | Some [] => Returned c
  | Some bs =>
      match labels ds, confidences ds with
      | Some ls, Some cs => Returned (forEach_box ls cs bs 0 c)
      | _, _ => Uncaught "TypeError" c
      end
  end.

(** [img.onload] *)
Definition img_onload (detection : DetectionPayload) (img : Image)
    (c : Canvas) : Outcome :=
  let c := set_width (img_width img) c in
  let c := set_height (img_height img) c in
  let c := drawImage img 0 0 c in
  match detections detection with
  | Some ds =>
      match boxes ds with
      | Some _ => drawBoundingBoxes ds c
      | None => Returned c
      end
  | None => Returned c
  end.

(** [img.onerror] *)
Definition img_onerror (c : Canvas) : Canvas :=
  let c := set_fillStyle (Some "#333") c in
  let c := fillRect 0 0 (Z_or (width c) 300) (Z_or (height c) 200) c in
  let c := set_fillStyle (Some "#fff") c in
  fillText "Frame Load Error" 10 20 c.

(** The source handed to the decoder, when the effect gets that far:
    [detection], its [frame] (a non-empty string), the canvas and its
    2d context must all be there. *)
Definition image_source (detection : option DetectionPayload)
    (canvasRef : option Canvas) : option string :=
  match detection, canvasRef with
  | Some d, Some c =>
      match frame d with
      | Some f =>
          if truthy_str f && has_2d c then
            Some (if String.prefix "data:image" f then f
                  else "data:image/jpeg;base64," ++ f)
          else None
      | None => None
      end
  | _, _ => None
  end.

(** The rendering effect together with the load or error event that
    follows it.  [None]: the effect returned early and the canvas is
    as it was. *)
Definition renderFrame (detection : option DetectionPayload)
    (canvasRef : option Canvas) : option Outcome :=
  match image_source detection canvasRef, detection, canvasRef with
  | Some src, Some d, Some c =>
      match decode src with
      | Some img => Some (img_onload d img c)
      | None => Some (Returned (img_onerror c))
      end
  | _, _, _ => None
  end.
End Browser.

(** The canvas a handler leaves behind, whether it returned or threw. *)
Definition canvas_of (o : Outcome) : Canvas :=
  match o with Returned c => c | Uncaught _ c => c end.
End VideoTile.

(* ================================================================== *)
(** ** [src/pages/AdminDashboard.jsx] *)
(* ================================================================== *)
Module AdminDashboard.

(** A registry entry, [{sid, username, camera_id, deployed}]. *)
Record CameraRecord := {
  sid : string;
  username : string;
  camera_id : string;
  deployed : bool
}.

Record Stats := {
  totalCameras : Z;
  deployedCameras : Z;
  totalDetections : Z;
  activeThreats : Z
}.

(** The payload of [deploy_start] and [deploy_stop]. *)
Record DeployCommand := { command_camera_sid : string }.

(** The component's state: the [useState] cells, the transport module
    and the [alert] boxes shown so far.  [detections] is the JavaScript
    object used as a map from sid to the latest payload. *)
Record State := {
  socket : option nat;
  connected : bool;
  cameras : list CameraRecord;
  detections : gmap string DetectionPayload;
  stats : Stats;
  transport : Socket.State DeployCommand;
  alerts : list string
}.

Definition initial : State :=
  {| socket := None; connected := false; cameras := []; detections := ∅;
     stats := {| totalCameras := 0; deployedCameras := 0;
                 totalDetections := 0; activeThreats := 0 |};
     transport := Socket.initial; alerts := [] |}.

Definition setSocket (s : option nat) (st : State) : State :=
  {| socket := s; connected := connected st; cameras := cameras st;
     detections := detections st; stats := stats st;
     transport := transport st; alerts := alerts st |}.

Definition setConnected (b : bool) (st : State) : State :=
  {| socket := socket st; connected := b; cameras := cameras st;
     detections := detections st; stats := stats st;
     transport := transport st; alerts := alerts st |}.

Definition setCameras (f : list CameraRecord -> list CameraRecord) (st : State) : State :=
  {| socket := socket st; connected := connected st; cameras := f (cameras st);
     detections := detections st; stats := stats st;
     transport := transport st; alerts := alerts st |}.

Definition setDetections
    (f : gmap string DetectionPayload -> gmap string DetectionPayload)
    (st : State) : State :=
  {| socket := socket st; connected := connected st; cameras := cameras st;
     detections := f (detections st); stats := stats st;
     transport := transport st; alerts := alerts st |}.

Definition setStats (f : Stats -> Stats) (st : State) : State :=
  {| socket := socket st; connected := connected st; cameras := cameras st;
     detections := detections st; stats := f (stats st);
     transport := transport st; alerts := alerts st |}.

Definition with_transport (f : Socket.State DeployCommand -> Socket.State DeployCommand)
    (st : State) : State :=
  {| socket := socket st; connected := connected st; cameras := cameras st;
     detections := detections st; stats := stats st;
     transport := f (transport st); alerts := alerts st |}.

Definition alert (msg : string) (st : State) : State :=
  {| socket := socket st; connected := connected st; cameras := cameras st;
     detections := detections st; stats := stats st;
     transport := transport st; alerts := (alerts st ++ [msg])%list |}.

(** [updateStats(cameraList)] *)
Definition updateStats (cameraList : list CameraRecord) (st : State) : State :=
  let deployed_n := length (filter (fun cam => deployed cam = true) cameraList) in
  setStats (fun prev => {| totalCameras := Z.of_nat (length cameraList);
                           deployedCameras := Z.of_nat deployed_n;
                           totalDetections := totalDetections prev;
                           activeThreats := activeThreats prev |}) st.

(** The handlers of ['connect'] and ['disconnect']. *)
Definition on_connect (st : State) : State := setConnected true st.
Definition on_disconnect (st : State) : State := setConnected false st.

(** ['camera:list']; the argument is [data.cameras]. *)
Definition on_camera_list (data_cameras : option (list CameraRecord)) (st : State) : State :=
  let l := default [] data_cameras in
  updateStats l (setCameras (fun _ => l) st).

(** ['camera:connected'] with [data = {sid, username, camera_id}]. *)
Definition on_camera_connected (data_sid data_username data_camera_id : string)
    (st : State) : State :=
  let newCameras := (cameras st ++ [ {| sid := data_sid; username := data_username;
                                        camera_id := data_camera_id;
                                        deployed := false |} ])%list in
  setCameras (fun _ => newCameras) (updateStats newCameras st).

(** ['camera:disconnect'] with [data = {sid}]. *)
Definition on_camera_disconnect (data_sid : string) (st : State) : State :=
  let newCameras := filter (fun cam => sid cam ≠ data_sid) (cameras st) in
  let st := setCameras (fun _ => newCameras) (updateStats newCameras st) in
  setDetections (fun prev => delete data_sid prev) st.

Definition set_deployed (b : bool) (cam : CameraRecord) : CameraRecord :=
  {| sid := sid cam; username := username cam; camera_id := camera_id cam;
     deployed := b |}.

(** ['deploy:success'] with [data = {camera_sid}]. *)
Definition on_deploy_success (data_camera_sid : string) (st : State) : State :=
  let newCameras :=
    map (fun cam => if decide (sid cam = data_camera_sid)
                    then set_deployed true cam else cam) (cameras st) in
  setCameras (fun _ => newCameras) (updateStats newCameras st).

(** [Object.values(m).reduce((sum, det) => sum + (det.detections?.count || 0), 0)] *)
Definition sum_counts (m : gmap string DetectionPayload) : Z :=
  map_fold (fun _ det sum => sum + count_or_0 det) 0 m.

(** ['detection:result'] *)
Definition on_detection_result (data : DetectionPayload) (st : State) : State :=
  let updatedDetections := <[camera_sid data := data]> (detections st) in
  let st :=
    setStats (fun prevStats =>
                {| totalCameras := totalCameras prevStats;
                   deployedCameras := deployedCameras prevStats;
                   totalDetections := totalDetections prevStats + count_or_0 data;
                   activeThreats := sum_counts updatedDetections |}) st in
  setDetections (fun _ => updatedDetections) st.

(** [!socket || !connected] *)
Definition not_ready (st : State) : bool :=
  negb (match socket st with Some _ => true | None => false end) || negb (connected st).

(** [handleDeploy(cameraSid)] *)
Definition handleDeploy (cameraSid : string) (st : State) : State :=
  if not_ready st then alert "Not connected to server" st
  else with_transport
         (Socket.emitEvent "deploy_start" {| command_camera_sid := cameraSid |}) st.

(** [handleStop(cameraSid)] *)
Definition handleStop (cameraSid : string) (st : State) : State :=
  if not_ready st then alert "Not connected to server" st
  else
    let st := with_transport
                (Socket.emitEvent "deploy_stop" {| command_camera_sid := cameraSid |}) st in
    let st := setCameras
                (map (fun cam => if decide (sid cam = cameraSid)
                                 then set_deployed false cam else cam)) st in
    setDetections (fun prev => delete cameraSid prev) st.

(** The events the effect subscribes to on the socket instance. *)
Definition subscriptions : list string :=
  ["connect"; "disconnect"; "camera:list"; "camera:connected";
   "camera:disconnect"; "deploy:success"; "detection:result"].

Section WithEndpoint.
Variable SOCKET_URL : string.

(** The body of the [useEffect] on [token]. *)
Definition mount (token : option string) (st : State) : State :=
  if truthy_opt_str token then
    let '(socketInstance, tr) :=
      Socket.connectSocket SOCKET_URL token (transport st) in
    let st := setSocket socketInstance (with_transport (fun _ => tr) st) in
    match socketInstance with
    | Some h =>
        with_transport
          (fun tr => foldl (fun t ev => Socket.on h ev t) tr subscriptions) st
    | None => st
    end
  else st.

(** Its cleanup.  When the socket is connected, [disconnectSocket]
    calls the ['disconnect'] handler registered above before it
    returns. *)
Definition unmount (st : State) : State :=
  let was_connected := Socket.socket_connected (transport st) in
  let st := with_transport Socket.disconnectSocket st in
  if was_connected then on_disconnect st else st.

(** The transport connecting or dropping the socket instance the
    handlers were registered on. *)
Definition link (up : bool) (st : State) : State :=
  match socket st with
  | Some h => with_transport (Socket.set_connected h up) st
  | None => st
  end.

(** Everything the aggregator reacts to. *)
Inductive Event :=
| Mount (token : option string)
| Unmount
| Connect
| Disconnect
| CameraList (data_cameras : option (list CameraRecord))
| CameraConnected (data_sid data_username data_camera_id : string)
| CameraDisconnect (data_sid : string)
| DeploySuccess (data_camera_sid : string)
| DetectionResult (data : DetectionPayload)
| ClickDeploy (cameraSid : string)
| ClickStop (cameraSid : string).

Definition handle (e : Event) (st : State) : State :=
  match e with
  | Mount token => mount token st
  | Unmount => unmount st
  | Connect => on_connect (link true st)
  | Disconnect => on_disconnect (link false st)
  | CameraList l => on_camera_list l st
  | CameraConnected s u c => on_camera_connected s u c st
  | CameraDisconnect s => on_camera_disconnect s st
  | DeploySuccess s => on_deploy_success s st
  | DetectionResult d => on_detection_result d st
  | ClickDeploy s => handleDeploy s st
  | ClickStop s => handleStop s st
  end.

(** The state after a sequence of events, first event first. *)
Definition run (es : list Event) (st : State) : State :=
  foldl (fun s e => handle e s) st es.
End WithEndpoint.

(** The payload shown for a sid: with at least one camera in the
    registry, the video grid maps [Object.entries(detections)] to tiles;
    with none, the page shows no grid. *)
Definition displayed (st : State) (s : string) : option DetectionPayload :=
  match cameras st with
  | [] => None
  | _ :: _ => detections st !! s
  end.
End AdminDashboard.

(* ================================================================== *)
(** ** [src/pages/CameraClient.jsx] *)
(* ================================================================== *)
Module CameraClient.

Record Stats := {
  framesSent : Z;
  fps : Z;
  status : string
}.

(** A track of a media stream. *)
Inductive Track := Live | Ended.

(** The [<video>] element behind [videoRef]. *)
Record Video := {
  srcObject : option nat;
  onloadedmetadata : bool     (* the handler has been installed *)
}.

(** The payload of [camera_frame]. *)
Record FramePayload := { frame_base64 : string }.

(** The [useState] cells. *)
Record Cells := {
  socket : option nat;
  connected : bool;
  deployed : bool;
  streaming : bool;
  currentDetection : option DetectionPayload;
  stats : Stats
}.

(** The [useRef] cells assigned by the handlers; timer handles are
    positive integers.  (The counters kept by the timer callback are
    left out, see below.) *)
Record Refs := {
  videoRef : option Video;
  streamRef : option nat;
  intervalRef : option positive;
  socketRef : option nat;
  isConnectedRef : bool
}.

(** What the browser holds for the page: whether
    [navigator.mediaDevices.getUserMedia] exists, the number of
    [getUserMedia] calls not yet settled, the interval timers that are
    scheduled, the media streams handed out with their tracks, the
    first argument of each [console.error] and the [alert] boxes. *)
Record Browser := {
  mediaDevices : bool;
  pending : nat;
  timers : gset positive;
  next_timer : positive;
  streams : gmap nat (list Track);
  next_stream : nat;
  errors : list string;
  alerts : list string
}.

(** [closure_deployed] is the value of [deployed] in the closure the
    socket handlers and the cleanup were created in; [stopStreaming]
    called from them reads that value.  The body of the timer callback,
    [captureAndSendFrame], assigns none of [intervalRef], [streamRef],
    the timers or the tracks; it is not part of the model. *)
Record State := {
  cells : Cells;
  refs : Refs;
  closure_deployed : bool;
  browser : Browser;
  transport : Socket.State FramePayload
}.

Definition initial (media : bool) : State :=
  {| cells := {| socket := None; connected := false; deployed := false;
                 streaming := false; currentDetection := None;
                 stats := {| framesSent := 0; fps := 0; status := "IDLE" |} |};
     refs := {| videoRef := Some {| srcObject := None; onloadedmetadata := false |};
                streamRef := None; intervalRef := None; socketRef := None;
                isConnectedRef := false |};
     closure_deployed := false;
     browser := {| mediaDevices := media; pending := 0%nat; timers := ∅;
                   next_timer := 1%positive; streams := ∅; next_stream := 0%nat;
                   errors := []; alerts := [] |};
     transport := Socket.initial |}.

(** *** Field updates *)

Definition with_cells (f : Cells -> Cells) (st : State) : State :=
  {| cells := f (cells st); refs := refs st; closure_deployed := closure_deployed st;
     browser := browser st; transport := transport st |}.

Definition with_refs (f : Refs -> Refs) (st : State) : State :=
  {| cells := cells st; refs := f (refs st); closure_deployed := closure_deployed st;
     browser := browser st; transport := transport st |}.

Definition with_browser (f : Browser -> Browser) (st : State) : State :=
  {| cells := cells st; refs := refs st; closure_deployed := closure_deployed st;
     browser := f (browser st); transport := transport st |}.

Definition with_transport (f : Socket.State FramePayload -> Socket.State FramePayload)
    (st : State) : State :=
  {| cells := cells st; refs := refs st; closure_deployed := closure_deployed st;
     browser := browser st; transport := f (transport st) |}.

Definition set_closure_deployed (v : bool) (st : State) : State :=
  {| cells := cells st; refs := refs st; closure_deployed := v;
     browser := browser st; transport := transport st |}.

Definition setSocket (v : option nat) : State -> State :=
  with_cells (fun c => {| socket := v; connected := connected c; deployed := deployed c;
                          streaming := streaming c;
                          currentDetection := currentDetection c; stats := stats c |}).

Definition setConnected (v : bool) : State -> State :=
  with_cells (fun c => {| socket := socket c; connected := v; deployed := deployed c;
                          streaming := streaming c;
                          currentDetection := currentDetection c; stats := stats c |}).

Definition setDeployed (v : bool) : State -> State :=
  with_cells (fun c => {| socket := socket c; connected := connected c; deployed := v;
                          streaming := streaming c;
                          currentDetection := currentDetection c; stats := stats c |}).

Definition setStreaming (v : bool) : State -> State :=
  with_cells (fun c => {| socket := socket c; connected := connected c;
                          deployed := deployed c; streaming := v;
                          currentDetection := currentDetection c; stats := stats c |}).

Definition setCurrentDetection (v : option DetectionPayload) : State -> State :=
  with_cells (fun c => {| socket := socket c; connected := connected c;
                          deployed := deployed c; streaming := streaming c;
                          currentDetection := v; stats := stats c |}).

(** [setStats(prev => ({ ...prev, status: s }))] *)
Definition setStatus (s : string) : State -> State :=
  with_cells (fun c => {| socket := socket c; connected := connected c;
                          deployed := deployed c; streaming := streaming c;
                          currentDetection := currentDetection c;
                          stats := {| framesSent := framesSent (stats c);
                                      fps := fps (stats c); status := s |} |}).

Definition set_videoRef (v : option Video) : State -> State :=
  with_refs (fun r => {| videoRef := v; streamRef := streamRef r;
                         intervalRef := intervalRef r; socketRef := socketRef r;
                         isConnectedRef := isConnectedRef r |}).

Definition set_streamRef (v : option nat) : State -> State :=
  with_refs (fun r => {| videoRef := videoRef r; streamRef := v;
                         intervalRef := intervalRef r; socketRef := socketRef r;
                         isConnectedRef := isConnectedRef r |}).

Definition set_intervalRef (v : option positive) : State -> State :=
  with_refs (fun r => {| videoRef := videoRef r; streamRef := streamRef r;
                         intervalRef := v; socketRef := socketRef r;
                         isConnectedRef := isConnectedRef r |}).

Definition set_socketRef (v : option nat) : State -> State :=
  with_refs (fun r => {| videoRef := videoRef r; streamRef := streamRef r;
                         intervalRef := intervalRef r; socketRef := v;
                         isConnectedRef := isConnectedRef r |}).

Definition set_isConnectedRef (v : bool) : State -> State :=
  with_refs (fun r => {| videoRef := videoRef r; streamRef := streamRef r;
                         intervalRef := intervalRef r; socketRef := socketRef r;
                         isConnectedRef := v |}).

Definition set_pending (v : nat) : State -> State :=
  with_browser (fun b => {| mediaDevices := mediaDevices b; pending := v;
                            timers := timers b; next_timer := next_timer b;
                            streams := streams b; next_stream := next_stream b;
                            errors := errors b; alerts := alerts b |}).

Definition set_timers (v : gset positive) (n : positive) : State -> State :=
  with_browser (fun b => {| mediaDevices := mediaDevices b; pending := pending b;
                            timers := v; next_timer := n;
                            streams := streams b; next_stream := next_stream b;
                            errors := errors b; alerts := alerts b |}).

Definition set_streams (v : gmap nat (list Track)) (n : nat) : State -> State :=
  with_browser (fun b => {| mediaDevices := mediaDevices b; pending := pending b;
                            timers := timers b; next_timer := next_timer b;
                            streams := v; next_stream := n;
                            errors := errors b; alerts := alerts b |}).

Definition console_error (msg : string) : State -> State :=
  with_browser (fun b => {| mediaDevices := mediaDevices b; pending := pending b;
                            timers := timers b; next_timer := next_timer b;
                            streams := streams b; next_stream := next_stream b;
                            errors := (errors b ++ [msg])%list; alerts := alerts b |}).

Definition alert (msg : string) : State -> State :=
  with_browser (fun b => {| mediaDevices := mediaDevices b; pending := pending b;
                            timers := timers b; next_timer := next_timer b;
                            streams := streams b; next_stream := next_stream b;
                            errors := errors b; alerts := (alerts b ++ [msg])%list |}).

(** *** Browser primitives *)

(** [setInterval(f, 20)]: schedules a new timer and returns its handle. *)
Definition setInterval (st : State) : positive * State :=
  let h := next_timer (browser st) in
  (h, set_timers ({[h]} ∪ timers (browser st)) (Pos.succ h) st).

(** [clearInterval(h)] *)
Definition clearInterval (h : positive) (st : State) : State :=
  set_timers (timers (browser st) ∖ {[h]}) (next_timer (browser st)) st.

(** [stream.getTracks().forEach(track => track.stop())] *)
Definition stop_tracks (s : nat) (st : State) : State :=
  set_streams (alter (map (fun _ => Ended)) s (streams (browser st)))
              (next_stream (browser st)) st.

(** The tracks of stream [s]. *)
Definition tracks_of (st : State) (s : nat) : list Track :=
  default [] (streams (browser st) !! s).

(** *** [stopStreaming] *)

(** [if (intervalRef.current) { clearInterval(...); intervalRef.current = null; }] *)
Definition stop_interval (st : State) : State :=
  match intervalRef (refs st) with
  | Some h => set_intervalRef None (clearInterval h st)
  | None => st
  end.

(** [if (streamRef.current) { ...forEach(track => track.stop()); streamRef.current = null; }] *)
Definition stop_stream (st : State) : State :=
  match streamRef (refs st) with
  | Some s => set_streamRef None (stop_tracks s st)
  | None => st
  end.

(** [if (videoRef.current) { videoRef.current.srcObject = null; }] *)
Definition detach_video (st : State) : State :=
  match videoRef (refs st) with
  | Some v => set_videoRef (Some {| srcObject := None;
                                    onloadedmetadata := onloadedmetadata v |}) st
  | None => st
  end.

Definition stopStreaming (st : State) : State :=
  let st := stop_interval st in
  let st := stop_stream st in
  let st := detach_video st in
  let st := setStreaming false st in
  let st := setCurrentDetection None st in
  setStatus (if closure_deployed st then "DEPLOYED" else "IDLE") st.

(** *** [startStreaming]

    An [async] function: it runs up to the [await] when called, and
    resumes when the [getUserMedia] promise settles. *)

(** The [catch] block; [message] is [error.message]. *)
Definition startStreaming_catch (message : string) (st : State) : State :=
  let st := console_error "❌ Failed to start webcam:" st in
  let st := alert ("Failed to access webcam: " ++ message
                   ++ ". Please grant camera permissions.") st in
  setStatus "ERROR" st.

(** From the call to the [await]. *)
Definition startStreaming (st : State) : State :=
  if mediaDevices (browser st) then set_pending (S (pending (browser st))) st
  else startStreaming_catch "getUserMedia is not supported in this browser" st.

(** After the [await], the promise fulfilled with a new stream of
    [n] live tracks. *)
Definition startStreaming_resolved (n : nat) (st : State) : State :=
  let stream := next_stream (browser st) in
  let st := set_streams (<[stream := replicate n Live]> (streams (browser st)))
                        (S stream) st in
  let st := set_streamRef (Some stream) st in
  let st := match videoRef (refs st) with
            | Some _ => set_videoRef (Some {| srcObject := Some stream;
                                              onloadedmetadata := true |}) st
            | None => st
            end in
  let st := match intervalRef (refs st) with
            | Some h => clearInterval h st
            | None => st
            end in
  let '(h, st) := setInterval st in
  set_intervalRef (Some h) st.

(** After the [await], the promise rejected. *)
Definition startStreaming_rejected (message : string) (st : State) : State :=
  startStreaming_catch message st.

(** [videoRef.current.onloadedmetadata]; [play_ok] tells whether
    [videoRef.current.play()] succeeded. *)
Definition video_onloadedmetadata (play_ok : bool) (st : State) : State :=
  if play_ok then setStatus "STREAMING" (setStreaming true st)
  else console_error "❌ Video play error:" st.

(** *** The socket handlers and the effect *)

Definition on_connect (st : State) : State :=
  setStatus "CONNECTED" (set_isConnectedRef true (setConnected true st)).

Definition on_disconnect (st : State) : State :=
  let st := setConnected false st in
  let st := set_isConnectedRef false st in
  let st := setDeployed false st in
  let st := setStatus "DISCONNECTED" st in
  stopStreaming st.

Definition on_deploy_assigned (st : State) : State :=
  let st := setDeployed true st in
  let st := setStatus "DEPLOYED" st in
  startStreaming st.

Definition on_deploy_stop (st : State) : State :=
  let st := setDeployed false st in
  let st := setStatus "STOPPED" st in
  stopStreaming st.

Definition on_detection_result (data : DetectionPayload) (st : State) : State :=
  setCurrentDetection (Some data) st.

(** The cleanup returned by the effect.  When the socket is connected,
    [disconnectSocket] calls the ['disconnect'] handler registered on it
    before it returns. *)
Definition cleanup (st : State) : State :=
  let st := stopStreaming st in
  let was_connected := Socket.socket_connected (transport st) in
  let st := with_transport Socket.disconnectSocket st in
  if was_connected then on_disconnect st else st.

Definition subscriptions : list string :=
  ["connect"; "disconnect"; "deploy:assigned"; "deploy:stop"; "detection:result"].

(** The three ways the capture loop is told to stop. *)
Inductive StopTrigger := StopCommand | TransportDisconnect | Teardown.

Definition stop_handler (t : StopTrigger) : State -> State :=
  match t with
  | StopCommand => on_deploy_stop
  | TransportDisconnect => on_disconnect
  | Teardown => cleanup
  end.

Section WithEndpoint.
Variable SOCKET_URL : string.

(** The body of the [useEffect] on [token]. *)
Definition mount (token : option string) (st : State) : State :=
  if truthy_opt_str token then
    let '(socketInstance, tr) :=
      Socket.connectSocket SOCKET_URL token (transport st) in
    let st := with_transport (fun _ => tr) st in
    let st := setSocket socketInstance st in
    let st := set_socketRef socketInstance st in
    let st := set_closure_deployed (deployed (cells st)) st in
    match socketInstance with
    | Some h =>
        with_transport
          (fun tr => foldl (fun t ev => Socket.on h ev t) tr subscriptions) st
    | None => st
    end
  else st.

(** The transport connecting or dropping the socket instance. *)
Definition link (up : bool) (st : State) : State :=
  match socket (cells st) with
  | Some h => with_transport (Socket.set_connected h up) st
  | None => st
  end.

(** React committing a render: the [<video>] element is mounted
    unless [streaming && currentDetection] holds. *)
Definition render (st : State) : State :=
  if streaming (cells st)
     && match currentDetection (cells st) with Some _ => true | None => false end
  then set_videoRef None st
  else match videoRef (refs st) with
       | Some _ => st
       | None => set_videoRef (Some {| srcObject := None;
                                       onloadedmetadata := false |}) st
       end.

Inductive Event :=
| Mount (token : option string)
| Unmount
| Connect
| Disconnect
| DeployAssigned
| DeployStop
| DetectionResult (data : DetectionPayload)
| MediaResolved (n_tracks : nat)
| MediaRejected (message : string)
| LoadedMetadata (play_ok : bool)
| Render.

(** A settled promise or a metadata event needs something to settle
    or a handler to call; otherwise the event does not occur. *)
Definition handle (e : Event) (st : State) : State :=
  match e with
  | Mount token => mount token st
  | Unmount => cleanup st
  | Connect => on_connect (link true st)
  | Disconnect => on_disconnect (link false st)
  | DeployAssigned => on_deploy_assigned st
  | DeployStop => on_deploy_stop st
  | DetectionResult d => on_detection_result d st
  | MediaResolved n =>
      match pending (browser st) with
      | S k => startStreaming_resolved n (set_pending k st)
      | O => st
      end
  | MediaRejected m =>
      match pending (browser st) with
      | S k => startStreaming_rejected m (set_pending k st)
      | O => st
      end
  | LoadedMetadata ok =>
      match videoRef (refs st) with
      | Some v => if onloadedmetadata v then video_onloadedmetadata ok st else st
      | None => st
      end
  | Render => render st
  end.

Definition run (es : list Event) (st : State) : State :=
  foldl (fun s e => handle e s) st es.
End WithEndpoint.
End CameraClient.

(* ================================================================== *)
(** ** [src/pages/CameraClient.jsx]: the timer callback *)
(* ================================================================== *)
Module CaptureLoop.
Import Stdlib.Strings.Ascii.

(** [s.split(',')]: the pieces of [s] between commas; never empty. *)
Fixpoint split_comma (s : string) : list string :=
  match s with
  | EmptyString => [EmptyString]
  | String a rest =>
      if Ascii.eqb a ","%char then EmptyString :: split_comma rest
      else match split_comma rest with
           | piece :: pieces => String a piece :: pieces
           | [] => [String a EmptyString]
           end
  end.

(** [dataUrl.split(',')[1]]; [None] is [undefined]. *)
Definition base64data (dataUrl : string) : option string :=
  split_comma dataUrl !! 1%nat.

(** What one run of the callback finds in the page: whether
    [canvasRef.current] is there, the playback state and the intrinsic
    size of the [<video>] element, whether [getContext('2d')] gives a
    context, the result of drawing and [canvas.toDataURL('image/jpeg',
    0.3)] ([None]: one of them throws), and [Date.now()]. *)
Record Tick := {
  canvas_present : bool;
  video_paused : bool;
  video_ended : bool;
  videoWidth : Z;
  videoHeight : Z;
  context_2d : bool;
  toDataURL : option string;
  now : Z
}.

(** The page together with the cells only the callback assigns:
    [frameCountRef], [totalFramesSentRef], [lastFpsUpdate], and the
    [camera_frame] messages handed to [socket.emit] on the client in
    [socketRef], oldest first, each with its [frame] field. *)
Record State := {
  page : CameraClient.State;
  frameCountRef : Z;
  totalFramesSentRef : Z;
  lastFpsUpdate : Z;
  emitted : list (nat * option string)
}.

(** The component as first rendered at time [t0]. *)
Definition initial (media : bool) (t0 : Z) : State :=
  {| page := CameraClient.initial media; frameCountRef := 0;
     totalFramesSentRef := 0; lastFpsUpdate := t0; emitted := [] |}.

Definition with_page (f : CameraClient.State -> CameraClient.State) (st : State) : State :=
  {| page := f (page st); frameCountRef := frameCountRef st;
     totalFramesSentRef := totalFramesSentRef st;
     lastFpsUpdate := lastFpsUpdate st; emitted := emitted st |}.

(** [setStats(prev => ({ ...prev, fps, framesSent, status: 'STREAMING' }))] *)
Definition report (fps_now sent : Z) : CameraClient.State -> CameraClient.State :=
  CameraClient.with_cells
    (fun c => {| CameraClient.socket := CameraClient.socket c;
                 CameraClient.connected := CameraClient.connected c;
                 CameraClient.deployed := CameraClient.deployed c;
                 CameraClient.streaming := CameraClient.streaming c;
                 CameraClient.currentDetection := CameraClient.currentDetection c;
                 CameraClient.stats :=
                   {| CameraClient.framesSent := sent;
                      CameraClient.fps := fps_now;
                      CameraClient.status := "STREAMING" |} |}).

(** The part of [captureAndSendFrame] after [toDataURL] has returned
    [dataUrl], for the client [h] in [socketRef]. *)
Definition send_frame (h : nat) (dataUrl : string) (t : Z) (st : State) : State :=
  let sent := (emitted st ++ [(h, base64data dataUrl)])%list in
  let frames := frameCountRef st + 1 in
  if Z.leb 1000 (t - lastFpsUpdate st) then
    let total := totalFramesSentRef st + frames in
    {| page := report frames total (page st);
       frameCountRef := 0; totalFramesSentRef := total;
       lastFpsUpdate := t; emitted := sent |}
  else
    {| page := page st; frameCountRef := frames;
       totalFramesSentRef := totalFramesSentRef st;
       lastFpsUpdate := lastFpsUpdate st; emitted := sent |}.

(** [captureAndSendFrame()] *)
Definition captureAndSendFrame (i : Tick) (st : State) : State :=
  match CameraClient.videoRef (CameraClient.refs (page st)),
        CameraClient.socketRef (CameraClient.refs (page st)) with
  | Some _, Some h =>
      if canvas_present i && CameraClient.isConnectedRef (CameraClient.refs (page st)) then
        if video_paused i || video_ended i || Z.eqb (videoWidth i) 0 then st
        else if negb (context_2d i) then st
        else match toDataURL i with
             | Some dataUrl => send_frame h dataUrl (now i) st
             | None =>
                 with_page
                   (CameraClient.console_error "❌ Error in captureAndSendFrame:") st
             end
      else st
  | _, _ => st
  end.

Section WithEndpoint.
Variable SOCKET_URL : string.

(** The page's events, and the interval timer firing. *)
Inductive Event :=
| Page (e : CameraClient.Event)
| Fire (i : Tick).

(** A timer fires only while one is scheduled. *)
Definition handle (e : Event) (st : State) : State :=
  match e with
  | Page e => with_page (CameraClient.handle SOCKET_URL e) st
  | Fire i =>
      if decide (CameraClient.timers (CameraClient.browser (page st)) = ∅) then st
      else captureAndSendFrame i st
  end.

Definition run (es : list Event) (st : State) : State :=
  foldl (fun s e => handle e s) st es.
End WithEndpoint.
End CaptureLoop.

(* ================================================================== *)
(** ** Vocabulary of the properties *)
(* ================================================================== *)

(** The canvas shows the image and nothing else. *)
Definition shows_only (img : VideoTile.Image) (c : VideoTile.Canvas) : Prop :=
  VideoTile.width c = VideoTile.img_width img
  ∧ VideoTile.height c = VideoTile.img_height img
  ∧ VideoTile.painted c = [VideoTile.DrawImage img 0 0].

(** The detection set of a payload is absent, or has no [boxes], or an
    empty [boxes] array. *)
Definition without_boxes (d : DetectionPayload) : Prop :=
  match detections d with
  | None => True
  | Some ds => boxes ds = None ∨ boxes ds = Some []
  end.

(** The placeholder painted over a canvas. *)
Definition placeholder (c : VideoTile.Canvas) : list VideoTile.Paint :=
  [VideoTile.FillRect "#333" 0 0 (Z_or (VideoTile.width c) 300)
                                 (Z_or (VideoTile.height c) 200);
   VideoTile.FillText "#fff" (VideoTile.font (VideoTile.ctx c)) "Frame Load Error" 10 20].

(** The source the effect builds for a frame: the frame itself when it
    starts with "data:image", else the frame as the body of a JPEG data
    URL. *)
Definition frame_url (f : string) : string :=
  if String.prefix "data:image" f then f else "data:image/jpeg;base64," ++ f.

(** Every frame whose source the decoder rejects gets the placeholder,
    on a canvas that is mounted and has a 2d context. *)
Definition placeholder_for_every_undecodable_frame : Prop :=
  ∀ (decode : string → option VideoTile.Image) (measureText : string → string → Z)
    (percent : Q → string) (d : DetectionPayload) (f : string) (c : VideoTile.Canvas),
    frame d = Some f →
    VideoTile.has_2d c = true →
    decode (frame_url f) = None →
    ∃ c', VideoTile.renderFrame decode measureText percent (Some d) (Some c)
          = Some (VideoTile.Returned c')
          ∧ VideoTile.painted c' = (VideoTile.painted c ++ placeholder c)%list.

(** Every track of stream [s] has been stopped. *)
Definition all_stopped (st : CameraClient.State) (s : nat) : Prop :=
  Forall (fun t => t = CameraClient.Ended) (CameraClient.tracks_of st s).

(** The recurring timer [h] is no longer scheduled. *)
Definition cancelled (st : CameraClient.State) (h : positive) : Prop :=
  h ∉ CameraClient.timers (CameraClient.browser st).

(** Every scheduled timer is the one [intervalRef] holds. *)
Definition timers_owned (st : CameraClient.State) : Prop :=
  ∀ h, h ∈ CameraClient.timers (CameraClient.browser st) →
       CameraClient.intervalRef (CameraClient.refs st) = Some h.

(** The detection of the specification's scenario: one weapon seen by the
    camera with sid "1". *)
Definition weapon_seen : DetectionPayload :=
  {| camera_id := "cam1"; camera_sid := "1"; frame := Some "AAAA";
     detections := Some {| count := Some 1;
                           boxes := Some [ {| x1 := 10; y1 := 10; x2 := 50; y2 := 50 |} ];
                           labels := Some ["Weapon"];
                           confidences := Some [(87 # 100)%Q] |};
     timestamp := 1700000000 |}.

(** The listeners [connectSocket] installs on a client it constructs. *)
Definition own_listeners : list string :=
  ["connect"; "connect_error"; "disconnect"; "connect_error"].

(** The colours of the labels the overlay knows. *)
Definition palette : list (string * string) :=
  [("Human", "#FFFF00"); ("Weapon", "#FF0000"); ("Vehicle", "#0000FF")].

(** The number of registry entries flagged as deployed. *)
Definition deployed_count (l : list AdminDashboard.CameraRecord) : Z :=
  Z.of_nat (length (filter (fun cam => AdminDashboard.deployed cam = true) l)).

(** The counts carried by the [detection:result] events of a trace,
    added up. *)
Definition arrived_total (es : list AdminDashboard.Event) : Z :=
  foldr (fun e acc => match e with
                      | AdminDashboard.DetectionResult d => count_or_0 d + acc
                      | _ => acc
                      end) 0 es.

(** The events whose handlers rebuild the registry and call
    [updateStats] on it. *)
Definition registry_event (e : AdminDashboard.Event) : bool :=
  match e with
  | AdminDashboard.CameraList _ | AdminDashboard.CameraConnected _ _ _
  | AdminDashboard.CameraDisconnect _ | AdminDashboard.DeploySuccess _ => true
  | _ => false
  end.

(** [totalCameras] is the length of the registry and [deployedCameras]
    is not below the number of deployed entries. *)
Definition registry_counted (st : AdminDashboard.State) : Prop :=
  AdminDashboard.totalCameras (AdminDashboard.stats st)
  = Z.of_nat (length (AdminDashboard.cameras st))
  ∧ (deployed_count (AdminDashboard.cameras st)
     ≤ AdminDashboard.deployedCameras (AdminDashboard.stats st))%Z.

(** Exactly the timer [intervalRef] holds is scheduled. *)
Definition timers_exact (st : CameraClient.State) : Prop :=
  CameraClient.timers (CameraClient.browser st)
  = match CameraClient.intervalRef (CameraClient.refs st) with
    | Some h => {[ h ]}
    | None => ∅
    end.

(** The statuses the page can be seen in between two events. *)
Definition settled_statuses : list string :=
  ["IDLE"; "CONNECTED"; "DEPLOYED"; "STREAMING"; "ERROR"].

Definition settled (st : CameraClient.State) : Prop :=
  CameraClient.status (CameraClient.stats (CameraClient.cells st)) ∈ settled_statuses.

(** The frame counters add up: the frames handed to [socket.emit] are
    those already reported plus those of the running second, and the
    [framesSent] shown is the reported total. *)
Definition accounted (st : CaptureLoop.State) : Prop :=
  Z.of_nat (length (CaptureLoop.emitted st))
  = CaptureLoop.totalFramesSentRef st + CaptureLoop.frameCountRef st
  ∧ CameraClient.framesSent (CameraClient.stats (CameraClient.cells (CaptureLoop.page st)))
    = CaptureLoop.totalFramesSentRef st
  ∧ (0 ≤ CaptureLoop.frameCountRef st)%Z.

(** One of the conditions under which [captureAndSendFrame] returns at
    once holds. *)
Definition not_capturing (i : CaptureLoop.Tick) (st : CaptureLoop.State) : Prop :=
  CameraClient.videoRef (CameraClient.refs (CaptureLoop.page st)) = None
  ∨ CameraClient.socketRef (CameraClient.refs (CaptureLoop.page st)) = None
  ∨ CameraClient.isConnectedRef (CameraClient.refs (CaptureLoop.page st)) = false
  ∨ CaptureLoop.canvas_present i = false
  ∨ CaptureLoop.video_paused i = true
  ∨ CaptureLoop.video_ended i = true
  ∨ CaptureLoop.videoWidth i = 0
  ∨ CaptureLoop.context_2d i = false.

(** The characters of the base64 alphabet, padding included. *)
Definition base64_char (a : Ascii.ascii) : bool :=
  let n := Ascii.nat_of_ascii a in
  ((65 <=? n) && (n <=? 90) || (97 <=? n) && (n <=? 122)
   || (48 <=? n) && (n <=? 57) || (n =? 43) || (n =? 47) || (n =? 61))%nat.

Fixpoint base64_string (s : string) : bool :=
  match s with
  | EmptyString => true
  | String a rest => base64_char a && base64_string rest
  end.

(* ================================================================== *)
(** ** Transport session *)
(* ================================================================== *)
Section SocketFacts.
Context {Data : Type}.
Variable SOCKET_URL : string.
Implicit Types st : Socket.State Data.

(** A call of [connectSocket] that returns a session leaves that
    session in the module variable. *)
Lemma connectSocket_returns_socket token st h st' :
  Socket.connectSocket SOCKET_URL token st = (Some h, st') →
  Socket.socket st' = Some h.
Proof.
  unfold Socket.connectSocket.
  destruct (Socket.socket_connected st) eqn:Hc.
  - intros [= Hs <-]. exact Hs.
  - destruct token as [t|]; [destruct (truthy_str t)|]; intros [= <- <-]; done.
Qed.

(** A session that was never initialised is not connected. *)
Lemma never_initialised_not_connected st :
  Socket.socket st = None → Socket.isConnected st = false.
Proof. unfold Socket.isConnected, Socket.socket_connected. by intros ->. Qed.

(** A call of [connectSocket] while connected opens nothing. *)
Lemma connectSocket_connected token st :
  Socket.socket_connected st = true →
  Socket.connectSocket SOCKET_URL token st
  = (Socket.socket st, Socket.say (ConsoleLog ["🔌 Socket already connected"]) st).
Proof. unfold Socket.connectSocket. by intros ->. Qed.

(** The constructor runs exactly when the session is not connected and
    a token is given. *)
Lemma connectSocket_handshakes token st :
  Socket.handshakes (Socket.connectSocket SOCKET_URL token st).2
  = if Socket.socket_connected st then Socket.handshakes st
    else if truthy_opt_str token then S (Socket.handshakes st)
    else Socket.handshakes st.
Proof.
  unfold Socket.connectSocket.
  destruct (Socket.socket_connected st); [done|].
  destruct token as [t|]; [destruct (truthy_str t) eqn:Ht|]; simpl; by rewrite ?Ht.
Qed.
End SocketFacts.

(** C5.  A second call of [connectSocket], made while the session the
    first call returned is still the module's session and is connected,
    returns that same session object; the constructor [io] is not called
    again (the count of handshakes, the clients and the messages sent
    are as before the call), whatever token the second call is given. *)
Theorem connect_twice_same_session {Data : Type} (SOCKET_URL : string)
    (token1 token2 : option string) (st st1 st2 : Socket.State Data) (h : nat) :
  Socket.connectSocket SOCKET_URL token1 st = (Some h, st1) →
  Socket.socket st2 = Socket.socket st1 →
  Socket.socket_connected st2 = true →
  (Socket.connectSocket SOCKET_URL token2 st2).1 = Some h
  ∧ Socket.handshakes (Socket.connectSocket SOCKET_URL token2 st2).2 = Socket.handshakes st2
  ∧ Socket.heap (Socket.connectSocket SOCKET_URL token2 st2).2 = Socket.heap st2
  ∧ Socket.socket (Socket.connectSocket SOCKET_URL token2 st2).2 = Some h
  ∧ Socket.wire (Socket.connectSocket SOCKET_URL token2 st2).2 = Socket.wire st2.
Proof.
  intros Hfirst Hsame Hconn.
  apply connectSocket_returns_socket in Hfirst.
  rewrite (connectSocket_connected SOCKET_URL token2 st2 Hconn). simpl.
  rewrite Hsame, Hfirst. done.
Qed.

Lemma connect_twice_same_session_witness :
  let st1 := (Socket.connectSocket (Data:=unit) "http://hub:8000" (Some "jwt") Socket.initial).2 in
  let st2 := Socket.server_connect 0 st1 in
  (Socket.connectSocket "http://hub:8000" None st2).1 = Some 0%nat
  ∧ Socket.handshakes (Socket.connectSocket "http://hub:8000" None st2).2 = Socket.handshakes st2
  ∧ Socket.heap (Socket.connectSocket "http://hub:8000" None st2).2 = Socket.heap st2
  ∧ Socket.socket (Socket.connectSocket "http://hub:8000" None st2).2 = Some 0%nat
  ∧ Socket.wire (Socket.connectSocket "http://hub:8000" None st2).2 = Socket.wire st2.
Proof.
  intros st1 st2.
  apply (connect_twice_same_session "http://hub:8000" (Some "jwt") None
           Socket.initial st1 st2 0%nat); reflexivity.
Defined.

(** C9.  [emitEvent] on a session that is not connected, or that was
    never initialised, returns normally: nothing is put on the wire, and
    the only trace is one [console.error] entry naming the event. *)
Theorem emitEvent_not_connected {Data : Type} (event : string) (data : Data)
    (st : Socket.State Data) :
  Socket.isConnected st = false →
  Socket.wire (Socket.emitEvent event data st) = Socket.wire st
  ∧ Socket.console (Socket.emitEvent event data st)
    = (Socket.console st
       ++ [ConsoleError ["❌ Socket not connected, cannot emit event:"; event]])%list
  ∧ Socket.socket (Socket.emitEvent event data st) = Socket.socket st
  ∧ Socket.heap (Socket.emitEvent event data st) = Socket.heap st
  ∧ Socket.handshakes (Socket.emitEvent event data st) = Socket.handshakes st.
Proof.
  unfold Socket.isConnected, Socket.emitEvent. intros ->. done.
Qed.

Lemma emitEvent_not_connected_witness :
  let st := Socket.initial (Data:=nat) in
  Socket.wire (Socket.emitEvent "camera_frame" 7%nat st) = []
  ∧ Socket.console (Socket.emitEvent "camera_frame" 7%nat st)
    = [ConsoleError ["❌ Socket not connected, cannot emit event:"; "camera_frame"]]
  ∧ Socket.socket (Socket.emitEvent "camera_frame" 7%nat st) = None
  ∧ Socket.heap (Socket.emitEvent "camera_frame" 7%nat st) = ∅
  ∧ Socket.handshakes (Socket.emitEvent "camera_frame" 7%nat st) = 0%nat.
Proof.
  intros st. apply (emitEvent_not_connected "camera_frame" 7%nat st). reflexivity.
Defined.

(* ================================================================== *)
(** ** Overlay renderer *)
(* ================================================================== *)
Section RendererFacts.
Import VideoTile.
Variable decode : string -> option Image.
Variable measureText : string -> string -> Z.
Variable percent : Q -> string.
Implicit Types (c : Canvas) (ls : list string) (cs : list Q) (bs : list Box).

(** The text of the chip of box [i]. *)
Local Abbreviation chip_text ls cs i :=
  (labelText percent (label_at ls i) (conf_at cs i)).

(** An index past the end of the array reads [undefined]. *)
Lemma label_at_beyond ls i : (length ls ≤ i)%nat → label_at ls i = "Unknown".
Proof. intros H. unfold label_at. by rewrite lookup_ge_None_2. Qed.

Lemma conf_at_beyond cs i : (length cs ≤ i)%nat → conf_at cs i = 0%Q.
Proof. intros H. unfold conf_at. by rewrite lookup_ge_None_2. Qed.

(** One iteration paints three primitives and touches nothing else. *)
Lemma draw_box_painted ls cs c i box :
  painted (draw_box measureText percent ls cs c i box)
  = (painted c
     ++ [StrokeRect (default (strokeStyle (ctx c)) (colorMap (label_at ls i))) 3
           (x1 box) (y1 box) (x2 box - x1 box) (y2 box - y1 box);
         FillRect (default (fillStyle (ctx c)) (colorMap (label_at ls i)))
           (x1 box) (y1 box - 20)
           (measureText "14px Arial" (chip_text ls cs i) + 10) 20;
         FillText "#000000" "14px Arial" (chip_text ls cs i)
           (x1 box + 5) (y1 box - 5)])%list.
Proof.
  unfold draw_box.
  destruct (colorMap (label_at ls i)); simpl; by rewrite <- !app_assoc.
Qed.

(** What the loop adds to the canvas: three primitives per box, in
    box order, each with the label and confidence read at its index. *)
Lemma forEach_box_painted ls cs bs : ∀ i c,
  ∃ rest,
    painted (forEach_box measureText percent ls cs bs i c) = (painted c ++ rest)%list
    ∧ ∀ j box, bs !! j = Some box →
        ∃ stroke fill,
          rest !! (3 * j)%nat
          = Some (StrokeRect stroke 3 (x1 box) (y1 box)
                    (x2 box - x1 box) (y2 box - y1 box))
          ∧ rest !! (3 * j + 1)%nat
            = Some (FillRect fill (x1 box) (y1 box - 20)
                      (measureText "14px Arial" (chip_text ls cs (i + j)) + 10) 20)
          ∧ rest !! (3 * j + 2)%nat
            = Some (FillText "#000000" "14px Arial" (chip_text ls cs (i + j))
                      (x1 box + 5) (y1 box - 5))
          ∧ ∀ col, colorMap (label_at ls (i + j)) = Some col →
                   stroke = col ∧ fill = col.
Proof.
  induction bs as [|b bs IH]; intros i c.
  - exists []. split; [by rewrite app_nil_r|]. intros j box Hj. done.
  - cbn [forEach_box]. destruct (IH (S i) (draw_box measureText percent ls cs c i b))
      as (rest & Hp & Hrest).
    rewrite draw_box_painted in Hp. rewrite <- app_assoc in Hp.
    eexists. split; [exact Hp|].
    intros [|j] box Hj.
    + simpl in Hj. injection Hj as ->. replace (i + 0)%nat with i by lia.
      do 2 eexists. do 3 (split; [reflexivity|]).
      intros col Hcol. by rewrite Hcol.
    + simpl in Hj. destruct (Hrest j box Hj) as (s & f & H0 & H1 & H2 & Hc).
      replace (i + S j)%nat with (S i + j)%nat by lia.
      exists s, f.
      replace (3 * S j)%nat with (3 + 3 * j)%nat by lia.
      split; [exact H0|]. split; [exact H1|]. split; [exact H2|exact Hc].
Qed.
End RendererFacts.

(** C4.  Whatever the lengths of the [boxes], [labels] and [confidences]
    arrays, [drawBoundingBoxes] returns (no exception escapes), and for
    every box index [i] the text painted on the chip is the label, a
    space, the digits of the confidence and "%", where the label is
    [labels[i]] when that is a non-empty string and the confidence is
    [confidences[i]] when that is not zero.  At an index past the end of
    [labels] the label is "Unknown" (and the box is stroked in the
    default green), at an index past the end of [confidences] the
    confidence is 0; past the end of both the text reads "Unknown 0%"
    ([percent 0] being the digits "0" that [toFixed] gives for 0). *)
Theorem overlay_mismatched_lengths (measureText : string -> string -> Z)
    (percent : Q -> string) (ds : DetectionSet) (bs : list Box)
    (ls : list string) (cs : list Q) (c : VideoTile.Canvas) :
  boxes ds = Some bs → labels ds = Some ls → confidences ds = Some cs →
  ∃ c',
    VideoTile.drawBoundingBoxes measureText percent ds c = VideoTile.Returned c'
    ∧ ∀ i box, bs !! i = Some box →
        ∃ label conf,
          VideoTile.painted c' !! (length (VideoTile.painted c) + 3 * i + 2)%nat
          = Some (VideoTile.FillText "#000000" "14px Arial"
                    (label ++ " " ++ percent conf ++ "%")%string
                    (x1 box + 5) (y1 box - 5))
          ∧ (∀ l, ls !! i = Some l → l ≠ "" → label = l)
          ∧ (∀ q, cs !! i = Some q → Qeq_bool q 0 = false → conf = q)
          ∧ ((length ls ≤ i)%nat →
             label = "Unknown"
             ∧ VideoTile.painted c' !! (length (VideoTile.painted c) + 3 * i)%nat
               = Some (VideoTile.StrokeRect "#00FF00" 3 (x1 box) (y1 box)
                         (x2 box - x1 box) (y2 box - y1 box)))
          ∧ ((length cs ≤ i)%nat → conf = 0%Q)
          ∧ ((length ls ≤ i)%nat → (length cs ≤ i)%nat → percent 0%Q = "0" →
             VideoTile.painted c' !! (length (VideoTile.painted c) + 3 * i + 2)%nat
             = Some (VideoTile.FillText "#000000" "14px Arial" "Unknown 0%"
                       (x1 box + 5) (y1 box - 5))).
Proof.
  intros Hb Hl Hc. unfold VideoTile.drawBoundingBoxes. rewrite Hb, Hl, Hc.
  destruct bs as [|b bs'].
  - exists c. split; [done|]. intros i box Hi. done.
  - destruct (forEach_box_painted measureText percent ls cs (b :: bs') 0%nat c)
      as (rest & Hp & Hrest).
    eexists. split; [reflexivity|].
    intros i box Hi. destruct (Hrest i box Hi) as (s & f & H0 & _ & H2 & Hcol).
    simpl in H2, Hcol. unfold VideoTile.labelText in H2.
    assert (VideoTile.painted
              (VideoTile.forEach_box measureText percent ls cs (b :: bs') 0 c)
              !! (length (VideoTile.painted c) + 3 * i + 2)%nat
            = Some (VideoTile.FillText "#000000" "14px Arial"
                      (VideoTile.label_at ls i ++ " "
                       ++ percent (VideoTile.conf_at cs i) ++ "%")%string
                      (x1 box + 5) (y1 box - 5))) as Htext.
    { rewrite Hp, <- Nat.add_assoc, lookup_app_r by lia.
      rewrite <- H2. f_equal. lia. }
    exists (VideoTile.label_at ls i), (VideoTile.conf_at cs i).
    split; [exact Htext|]. split.
    { intros l Hli Hne. unfold VideoTile.label_at. rewrite Hli. by destruct l. }
    split.
    { intros q Hqi Hq. unfold VideoTile.conf_at. by rewrite Hqi, Hq. }
    split.
    { intros Hi'. split; [by apply label_at_beyond|].
      rewrite Hp, lookup_app_r by lia. rewrite label_at_beyond in Hcol by done.
      destruct (Hcol "#00FF00" eq_refl) as [<- _].
      rewrite <- H0. f_equal. lia. }
    split; [apply conf_at_beyond|].
    intros Hls Hcs Hzero. rewrite Htext.
    by rewrite (label_at_beyond ls i Hls), (conf_at_beyond cs i Hcs), Hzero.
Qed.

Lemma overlay_mismatched_lengths_witness :
  let measureText := fun (_ text : string) => 7 * Z.of_nat (String.length text) in
  let percent := fun q : Q => if Qeq_bool q 0 then "0" else "87" in
  let bs := [ {| x1 := 10; y1 := 10; x2 := 50; y2 := 50 |};
              {| x1 := 60; y1 := 40; x2 := 90; y2 := 80 |} ] in
  let ls := ["Weapon"] in
  let cs : list Q := [] in
  let ds := {| count := Some 2; boxes := Some bs; labels := Some ls;
               confidences := Some cs |} in
  let c := {| VideoTile.width := 640; VideoTile.height := 480;
              VideoTile.has_2d := true; VideoTile.ctx := VideoTile.default_ctx;
              VideoTile.painted := [] |} in
  ∃ c',
    VideoTile.drawBoundingBoxes measureText percent ds c = VideoTile.Returned c'
    ∧ ∀ i box, bs !! i = Some box →
        ∃ label conf,
          VideoTile.painted c' !! (length (VideoTile.painted c) + 3 * i + 2)%nat
          = Some (VideoTile.FillText "#000000" "14px Arial"
                    (label ++ " " ++ percent conf ++ "%")%string
                    (x1 box + 5) (y1 box - 5))
          ∧ (∀ l, ls !! i = Some l → l ≠ "" → label = l)
          ∧ (∀ q, cs !! i = Some q → Qeq_bool q 0 = false → conf = q)
          ∧ ((length ls ≤ i)%nat →
             label = "Unknown"
             ∧ VideoTile.painted c' !! (length (VideoTile.painted c) + 3 * i)%nat
               = Some (VideoTile.StrokeRect "#00FF00" 3 (x1 box) (y1 box)
                         (x2 box - x1 box) (y2 box - y1 box)))
          ∧ ((length cs ≤ i)%nat → conf = 0%Q)
          ∧ ((length ls ≤ i)%nat → (length cs ≤ i)%nat → percent 0%Q = "0" →
             VideoTile.painted c' !! (length (VideoTile.painted c) + 3 * i + 2)%nat
             = Some (VideoTile.FillText "#000000" "14px Arial" "Unknown 0%"
                       (x1 box + 5) (y1 box - 5))).
Proof.
  intros measureText percent bs ls cs ds c.
  apply (overlay_mismatched_lengths measureText percent ds bs ls cs c); reflexivity.
Defined.

(** The same set rendered in full: the second box has no label and
    neither box has a confidence. *)
Example overlay_mismatched_example :
  VideoTile.drawBoundingBoxes
    (fun _ text => 7 * Z.of_nat (String.length text))
    (fun q => if Qeq_bool q 0 then "0" else "87")
    {| count := Some 2;
       boxes := Some [ {| x1 := 10; y1 := 10; x2 := 50; y2 := 50 |};
                       {| x1 := 60; y1 := 40; x2 := 90; y2 := 80 |} ];
       labels := Some ["Weapon"]; confidences := Some [] |}
    {| VideoTile.width := 640; VideoTile.height := 480; VideoTile.has_2d := true;
       VideoTile.ctx := VideoTile.default_ctx; VideoTile.painted := [] |}
  = VideoTile.Returned
      {| VideoTile.width := 640; VideoTile.height := 480; VideoTile.has_2d := true;
         VideoTile.ctx := {| VideoTile.strokeStyle := "#00FF00";
                             VideoTile.fillStyle := "#000000";
                             VideoTile.lineWidth := 3;
                             VideoTile.font := "14px Arial" |};
         VideoTile.painted :=
           [ VideoTile.StrokeRect "#FF0000" 3 10 10 40 40;
             VideoTile.FillRect "#FF0000" 10 (-10) 73 20;
             VideoTile.FillText "#000000" "14px Arial" "Weapon 0%" 15 5;
             VideoTile.StrokeRect "#00FF00" 3 60 40 30 40;
             VideoTile.FillRect "#00FF00" 60 20 80 20;
             VideoTile.FillText "#000000" "14px Arial" "Unknown 0%" 65 35 ] |}.
Proof. reflexivity. Qed.

(** C6.  When the payload has no detection set, or the set has no
    [boxes] or an empty [boxes] array, the load handler returns with the
    canvas sized to the image and holding the image alone: no rectangle,
    chip or text is painted. *)
Theorem onload_without_boxes (measureText : string -> string -> Z)
    (percent : Q -> string) (d : DetectionPayload) (img : VideoTile.Image)
    (c : VideoTile.Canvas) :
  without_boxes d →
  ∃ c', VideoTile.img_onload measureText percent d img c = VideoTile.Returned c'
        ∧ shows_only img c'.
Proof.
  unfold without_boxes, VideoTile.img_onload, VideoTile.drawBoundingBoxes.
  destruct (detections d) as [ds|]; [intros [-> | ->]|intros _];
    eexists; (split; [reflexivity|]); done.
Qed.

Lemma onload_without_boxes_witness :
  let img := {| VideoTile.img_width := 640; VideoTile.img_height := 480;
                VideoTile.img_src := "data:image/jpeg;base64,AAAA" |} in
  let d := {| camera_id := "cam1"; camera_sid := "1"; frame := Some "AAAA";
              detections := Some {| count := Some 0; boxes := Some [];
                                    labels := Some []; confidences := Some [] |};
              timestamp := 0 |} in
  let c := {| VideoTile.width := 300; VideoTile.height := 150;
              VideoTile.has_2d := true; VideoTile.ctx := VideoTile.default_ctx;
              VideoTile.painted := [VideoTile.FillText "#fff" "10px sans-serif"
                                      "Frame Load Error" 10 20] |} in
  ∃ c', VideoTile.img_onload (fun _ _ => 0) (fun _ => "0") d img c
        = VideoTile.Returned c'
        ∧ shows_only img c'.
Proof.
  intros img d c.
  apply (onload_without_boxes (fun _ _ => 0) (fun _ => "0") d img c).
  right. reflexivity.
Defined.

(** C8, amended.  When the effect hands a frame to the decoder (the
    frame is a non-empty string, the canvas is mounted and has a 2d
    context) and the decoder rejects it, rendering returns normally
    (nothing is thrown) and what it adds to the canvas is the
    placeholder: a filled rectangle in "#333" over the canvas and the
    text "Frame Load Error"; the frame is not drawn and the canvas keeps
    its size. *)
Theorem undecodable_frame_placeholder (decode : string -> option VideoTile.Image)
    (measureText : string -> string -> Z) (percent : Q -> string)
    (d : DetectionPayload) (c : VideoTile.Canvas) (src : string) :
  VideoTile.image_source (Some d) (Some c) = Some src →
  decode src = None →
  ∃ c', VideoTile.renderFrame decode measureText percent (Some d) (Some c)
        = Some (VideoTile.Returned c')
        ∧ VideoTile.painted c' = (VideoTile.painted c ++ placeholder c)%list
        ∧ VideoTile.width c' = VideoTile.width c
        ∧ VideoTile.height c' = VideoTile.height c.
Proof.
  intros Hsrc Hdec. unfold VideoTile.renderFrame. rewrite Hsrc, Hdec.
  eexists. split; [reflexivity|].
  unfold VideoTile.img_onerror, placeholder. simpl.
  by rewrite <- app_assoc.
Qed.

Lemma undecodable_frame_placeholder_witness :
  let decode := fun _ : string => @None VideoTile.Image in
  let d := {| camera_id := "cam1"; camera_sid := "1"; frame := Some "not-a-jpeg";
              detections := None; timestamp := 0 |} in
  let c := {| VideoTile.width := 300; VideoTile.height := 150;
              VideoTile.has_2d := true; VideoTile.ctx := VideoTile.default_ctx;
              VideoTile.painted := [] |} in
  ∃ c', VideoTile.renderFrame decode (fun _ _ => 0) (fun _ => "0") (Some d) (Some c)
        = Some (VideoTile.Returned c')
        ∧ VideoTile.painted c' = (VideoTile.painted c ++ placeholder c)%list
        ∧ VideoTile.width c' = VideoTile.width c
        ∧ VideoTile.height c' = VideoTile.height c.
Proof.
  intros decode d c.
  apply (undecodable_frame_placeholder decode (fun _ _ => 0) (fun _ => "0") d c
           "data:image/jpeg;base64,not-a-jpeg"); reflexivity.
Defined.

(** C8, as stated, fails: the empty string is a frame no decoder
    accepts (its source would be "data:image/jpeg;base64," with no
    body), but the effect's guard [!detection.frame] returns before the
    image is created, so nothing is painted, the placeholder
    included. *)
Lemma empty_frame_gets_no_placeholder : ¬ placeholder_for_every_undecodable_frame.
Proof.
  intros Hall.
  destruct (Hall (fun _ => None) (fun _ _ => 0) (fun _ => "0")
              {| camera_id := "cam1"; camera_sid := "1"; frame := Some "";
                 detections := None; timestamp := 0 |}
              ""
              {| VideoTile.width := 300; VideoTile.height := 150;
                 VideoTile.has_2d := true; VideoTile.ctx := VideoTile.default_ctx;
                 VideoTile.painted := [] |}
              eq_refl eq_refl eq_refl) as (c' & Hrender & _).
  discriminate Hrender.
Qed.

(** The placeholder of that example, on a fresh 300 by 150 canvas. *)
Example placeholder_example :
  VideoTile.painted
    (VideoTile.img_onerror
       {| VideoTile.width := 300; VideoTile.height := 150; VideoTile.has_2d := true;
          VideoTile.ctx := VideoTile.default_ctx; VideoTile.painted := [] |})
  = [ VideoTile.FillRect "#333" 0 0 300 150;
      VideoTile.FillText "#fff" "10px sans-serif" "Frame Load Error" 10 20 ].
Proof. reflexivity. Qed.

(** A frame that is missing or empty never reaches the decoder: the
    effect returns early and the canvas is left as it was. *)
Lemma empty_frame_not_rendered decode measureText percent d c :
  truthy_opt_str (frame d) = false →
  VideoTile.renderFrame decode measureText percent (Some d) (Some c) = None.
Proof.
  unfold VideoTile.renderFrame, VideoTile.image_source, truthy_opt_str.
  destruct (frame d) as [f|]; [intros ->|]; done.
Qed.

(** A non-empty frame on a mounted canvas with a 2d context is handed
    to the decoder, as the source [frame_url] gives. *)
Lemma image_source_frame_url d f c :
  frame d = Some f → f ≠ "" → VideoTile.has_2d c = true →
  VideoTile.image_source (Some d) (Some c) = Some (frame_url f).
Proof.
  intros Hf Hne H2d. unfold VideoTile.image_source, frame_url.
  rewrite Hf, H2d. by destruct f.
Qed.

(** With [boxes] present but [labels] missing the set is not a
    DetectionSet of arrays, and the first iteration throws. *)
Lemma missing_labels_throws measureText percent ds b bs c :
  boxes ds = Some (b :: bs) → labels ds = None →
  VideoTile.drawBoundingBoxes measureText percent ds c
  = VideoTile.Uncaught "TypeError" c.
Proof. unfold VideoTile.drawBoundingBoxes. by intros -> ->. Qed.

(* ================================================================== *)
(** ** Admin aggregator *)
(* ================================================================== *)
Section AggregatorFacts.
Import AdminDashboard.
Implicit Types (st : State) (m : gmap string DetectionPayload).

Lemma sum_counts_empty : sum_counts ∅ = 0.
Proof. unfold sum_counts. by rewrite map_fold_empty. Qed.

(** The sum does not depend on the order [Object.values] lists the
    payloads in. *)
Lemma sum_counts_insert m k d :
  m !! k = None → sum_counts (<[k := d]> m) = sum_counts m + count_or_0 d.
Proof.
  intros Hk. unfold sum_counts.
  rewrite map_fold_insert_L; [done| |done].
  intros; lia.
Qed.

Lemma sum_counts_delete m k d :
  m !! k = Some d → sum_counts m = sum_counts (delete k m) + count_or_0 d.
Proof.
  intros Hk. rewrite <- (insert_delete_id m k d Hk) at 1.
  apply sum_counts_insert, lookup_delete_eq.
Qed.

(** An arrival recomputes [activeThreats] from the map it stores. *)
Lemma detection_result_recomputes d st :
  activeThreats (stats (on_detection_result d st))
  = sum_counts (detections (on_detection_result d st)).
Proof. done. Qed.

Lemma detection_result_total d st :
  totalDetections (stats (on_detection_result d st))
  = totalDetections (stats st) + count_or_0 d.
Proof. done. Qed.

(** Neither removal path assigns [activeThreats]. *)
Lemma camera_disconnect_keeps_activeThreats s st :
  activeThreats (stats (on_camera_disconnect s st)) = activeThreats (stats st).
Proof. done. Qed.

Lemma handleStop_keeps_activeThreats s st :
  activeThreats (stats (handleStop s st)) = activeThreats (stats st).
Proof. unfold handleStop. by destruct (not_ready st). Qed.

Lemma camera_disconnect_detections s st :
  detections (on_camera_disconnect s st) = delete s (detections st).
Proof. done. Qed.

(** So removing a payload with a non-zero count leaves [activeThreats]
    above the sum by that count. *)
Lemma camera_disconnect_drift s d st :
  activeThreats (stats st) = sum_counts (detections st) →
  detections st !! s = Some d →
  activeThreats (stats (on_camera_disconnect s st))
  = sum_counts (detections (on_camera_disconnect s st)) + count_or_0 d.
Proof.
  intros Hinv Hs.
  rewrite camera_disconnect_keeps_activeThreats, camera_disconnect_detections, Hinv.
  by apply sum_counts_delete.
Qed.
End AggregatorFacts.

(** C1.  The code at the failing input: a camera connects and is
    deployed, one detection with count 1 arrives for it, and the camera
    disconnects.  Its payload is then gone from the map, so the sum of
    the counts of the held payloads is 0, but [activeThreats] is still
    1: the disconnect handler does not recompute it. *)
Theorem activeThreats_stale_after_disconnect :
  let st := AdminDashboard.run "http://hub:8000"
              [ AdminDashboard.Mount (Some "jwt");
                AdminDashboard.Connect;
                AdminDashboard.CameraConnected "1" "alice" "cam1";
                AdminDashboard.DeploySuccess "1";
                AdminDashboard.DetectionResult weapon_seen;
                AdminDashboard.CameraDisconnect "1" ]
              AdminDashboard.initial in
  AdminDashboard.cameras st = []
  ∧ AdminDashboard.detections st = ∅
  ∧ AdminDashboard.sum_counts (AdminDashboard.detections st) = 0
  ∧ AdminDashboard.activeThreats (AdminDashboard.stats st) = 1.
Proof. vm_compute. done. Qed.

(** The same with the locally issued stop in place of the disconnect. *)
Example activeThreats_stale_after_stop :
  let st := AdminDashboard.run "http://hub:8000"
              [ AdminDashboard.Mount (Some "jwt");
                AdminDashboard.Connect;
                AdminDashboard.CameraConnected "1" "alice" "cam1";
                AdminDashboard.DeploySuccess "1";
                AdminDashboard.DetectionResult weapon_seen;
                AdminDashboard.ClickStop "1" ]
              AdminDashboard.initial in
  AdminDashboard.detections st = ∅
  ∧ AdminDashboard.sum_counts (AdminDashboard.detections st) = 0
  ∧ AdminDashboard.activeThreats (AdminDashboard.stats st) = 1.
Proof. vm_compute. done. Qed.

(** C2.  After the handler of [camera:disconnect] for sid [s] has run,
    the registry is the old one without the records whose sid is [s]
    and the payload map is the old one without the key [s]: no record
    with sid [s] is left, the map has no payload for [s] and none is
    displayed for it.  The payloads of other sids stay in the map. *)
Theorem camera_disconnect_removes_both (s : string) (st : AdminDashboard.State) :
  let st' := AdminDashboard.on_camera_disconnect s st in
  AdminDashboard.cameras st'
  = filter (fun cam => AdminDashboard.sid cam ≠ s) (AdminDashboard.cameras st)
  ∧ Forall (fun cam => AdminDashboard.sid cam ≠ s) (AdminDashboard.cameras st')
  ∧ AdminDashboard.detections st' = delete s (AdminDashboard.detections st)
  ∧ AdminDashboard.detections st' !! s = None
  ∧ AdminDashboard.displayed st' s = None
  ∧ ∀ s', s' ≠ s →
      AdminDashboard.detections st' !! s' = AdminDashboard.detections st !! s'.
Proof.
  simpl. split; [done|]. split.
  - apply Forall_forall. intros cam Hcam.
    by apply list_elem_of_filter in Hcam as [? _].
  - split; [done|]. split; [apply lookup_delete_eq|]. split.
    + unfold AdminDashboard.displayed. simpl.
      destruct (filter _ _); [done|apply lookup_delete_eq].
    + intros s' Hs'. by apply lookup_delete_ne.
Qed.

(** C10.  The handler of [camera:connected] appends a record with
    [deployed = false] to the registry without looking for the sid in
    it, and [totalCameras] becomes the new length; a second event with
    the same sid appends a second record, and [totalCameras] counts
    both. *)
Theorem camera_connected_appends (s u1 c1 u2 c2 : string) (st : AdminDashboard.State) :
  let r1 := {| AdminDashboard.sid := s; AdminDashboard.username := u1;
               AdminDashboard.camera_id := c1; AdminDashboard.deployed := false |} in
  let r2 := {| AdminDashboard.sid := s; AdminDashboard.username := u2;
               AdminDashboard.camera_id := c2; AdminDashboard.deployed := false |} in
  let st1 := AdminDashboard.on_camera_connected s u1 c1 st in
  let st2 := AdminDashboard.on_camera_connected s u2 c2 st1 in
  AdminDashboard.cameras st1 = (AdminDashboard.cameras st ++ [r1])%list
  ∧ AdminDashboard.totalCameras (AdminDashboard.stats st1)
    = Z.of_nat (length (AdminDashboard.cameras st)) + 1
  ∧ AdminDashboard.cameras st2 = (AdminDashboard.cameras st ++ [r1; r2])%list
  ∧ AdminDashboard.totalCameras (AdminDashboard.stats st2)
    = Z.of_nat (length (AdminDashboard.cameras st)) + 2.
Proof.
  simpl. rewrite <- !app_assoc. simpl.
  rewrite !length_app. simpl. repeat split; lia.
Qed.

(** Two connects of one sid on the empty registry. *)
Example duplicate_sid_counted_twice :
  let st := AdminDashboard.run "http://hub:8000"
              [ AdminDashboard.CameraConnected "1" "alice" "cam1";
                AdminDashboard.CameraConnected "1" "alice" "cam1" ]
              AdminDashboard.initial in
  map AdminDashboard.sid (AdminDashboard.cameras st) = ["1"; "1"]
  ∧ AdminDashboard.totalCameras (AdminDashboard.stats st) = 2.
Proof. vm_compute. done. Qed.

(* ================================================================== *)
(** ** Camera client *)
(* ================================================================== *)
Section CameraFacts.
Import CameraClient.
Variable SOCKET_URL : string.
Implicit Types st : State.

Lemma stopped_tracks l : Forall (fun t => t = Ended) (map (fun _ : Track => Ended) l).
Proof. induction l; constructor; done. Qed.

(** The three steps of [stopStreaming], one handle each. *)
Lemma stop_interval_effect st :
  intervalRef (refs (stop_interval st)) = None
  ∧ (∀ h, intervalRef (refs st) = Some h → h ∉ timers (browser (stop_interval st)))
  ∧ timers (browser (stop_interval st)) ⊆ timers (browser st)
  ∧ streamRef (refs (stop_interval st)) = streamRef (refs st)
  ∧ streams (browser (stop_interval st)) = streams (browser st).
Proof.
  unfold stop_interval. destruct (intervalRef (refs st)) as [h|] eqn:Hi; simpl.
  - split; [done|]. split; [|split; [|done]].
    + intros h' Heq. injection Heq as <-. apply not_elem_of_difference.
      right. by apply elem_of_singleton.
    + apply subseteq_difference_l. done.
  - split; [done|]. split; [|done]. intros h' Heq. discriminate Heq.
Qed.

Lemma stop_stream_effect st :
  streamRef (refs (stop_stream st)) = None
  ∧ (∀ s, streamRef (refs st) = Some s →
          Forall (fun t => t = Ended) (tracks_of (stop_stream st) s))
  ∧ intervalRef (refs (stop_stream st)) = intervalRef (refs st)
  ∧ timers (browser (stop_stream st)) = timers (browser st).
Proof.
  unfold stop_stream, tracks_of.
  destruct (streamRef (refs st)) as [s|] eqn:Hs; simpl.
  - split; [done|]. split; [|done]. intros s' Heq. injection Heq as <-.
    rewrite lookup_alter_eq. destruct (streams (browser st) !! s); simpl.
    + apply stopped_tracks.
    + constructor.
  - split; [done|]. split; [|done]. intros s' Heq. discriminate Heq.
Qed.

Lemma detach_video_effect st :
  intervalRef (refs (detach_video st)) = intervalRef (refs st)
  ∧ streamRef (refs (detach_video st)) = streamRef (refs st)
  ∧ browser (detach_video st) = browser st.
Proof. unfold detach_video. by destruct (videoRef (refs st)). Qed.

(** [stopStreaming] leaves both handles null, has unscheduled the timer
    that was held and stopped every track of the stream that was
    held. *)
Lemma stopStreaming_releases st :
  intervalRef (refs (stopStreaming st)) = None
  ∧ (∀ h, intervalRef (refs st) = Some h → cancelled (stopStreaming st) h)
  ∧ streamRef (refs (stopStreaming st)) = None
  ∧ (∀ s, streamRef (refs st) = Some s → all_stopped (stopStreaming st) s).
Proof.
  destruct (stop_interval_effect st) as (Hi & Hcancel & _ & Hs & _).
  destruct (stop_stream_effect (stop_interval st)) as (Hs' & Hstop & Hi' & Ht).
  destruct (detach_video_effect (stop_stream (stop_interval st))) as (Hvi & Hvs & Hvb).
  unfold stopStreaming, cancelled, all_stopped, tracks_of. simpl. rewrite Hvb.
  split; [congruence|]. split.
  { intros h Hh. rewrite Ht. by apply Hcancel. }
  split; [congruence|].
  intros s Hst. apply Hstop. congruence.
Qed.

(** It schedules no timer. *)
Lemma stopStreaming_timers st :
  timers (browser (stopStreaming st)) ⊆ timers (browser st).
Proof.
  destruct (stop_interval_effect st) as (_ & _ & Hsub & _).
  destruct (stop_stream_effect (stop_interval st)) as (_ & _ & _ & Ht).
  destruct (detach_video_effect (stop_stream (stop_interval st))) as (_ & _ & Hvb).
  unfold stopStreaming. simpl. by rewrite Hvb, Ht.
Qed.

(** With no stream held, [stopStreaming] leaves the streams alone. *)
Lemma stopStreaming_streams_idle st :
  streamRef (refs st) = None →
  streams (browser (stopStreaming st)) = streams (browser st).
Proof.
  intros Hnone.
  destruct (stop_interval_effect st) as (_ & _ & _ & Hs & Hstreams).
  destruct (detach_video_effect (stop_stream (stop_interval st))) as (_ & _ & Hvb).
  unfold stopStreaming. simpl. rewrite Hvb.
  unfold stop_stream. rewrite Hs, Hnone. exact Hstreams.
Qed.

(** Running [stopStreaming] a second time, as the ['disconnect'] handler
    does inside the cleanup, keeps what the first run released. *)
Lemma stopStreaming_again (f : State → State) st :
  streamRef (refs (f (stopStreaming st))) = streamRef (refs (stopStreaming st)) →
  browser (f (stopStreaming st)) = browser (stopStreaming st) →
  intervalRef (refs (stopStreaming (f (stopStreaming st)))) = None
  ∧ (∀ h, intervalRef (refs st) = Some h →
          cancelled (stopStreaming (f (stopStreaming st))) h)
  ∧ streamRef (refs (stopStreaming (f (stopStreaming st)))) = None
  ∧ (∀ s, streamRef (refs st) = Some s →
          all_stopped (stopStreaming (f (stopStreaming st))) s).
Proof.
  intros Hrefs Hbrowser.
  destruct (stopStreaming_releases st) as (Hi & Hc & Hs & Hstop).
  destruct (stopStreaming_releases (f (stopStreaming st))) as (Hi' & _ & Hs' & _).
  split; [exact Hi'|]. split.
  { intros h Hh Hin. apply (Hc h Hh).
    apply stopStreaming_timers in Hin. by rewrite Hbrowser in Hin. }
  split; [exact Hs'|].
  intros s Hst. specialize (Hstop s Hst).
  unfold all_stopped, tracks_of in *.
  rewrite stopStreaming_streams_idle by (by rewrite Hrefs).
  by rewrite Hbrowser.
Qed.

(** The setters that run before [stopStreaming] in the handlers leave
    the handles and the browser alone. *)
Lemma on_deploy_stop_unfold st :
  on_deploy_stop st = stopStreaming (setStatus "STOPPED" (setDeployed false st)).
Proof. done. Qed.

(** The cleanup ends like [stopStreaming], or like the ['disconnect']
    handler run after it. *)
Lemma cleanup_cases st :
  cleanup st = with_transport Socket.disconnectSocket (stopStreaming st)
  ∨ cleanup st
    = on_disconnect (with_transport Socket.disconnectSocket (stopStreaming st)).
Proof. unfold cleanup. destruct (Socket.socket_connected _); auto. Qed.

Lemma on_disconnect_unfold st :
  on_disconnect st
  = stopStreaming (setStatus "DISCONNECTED"
                     (setDeployed false (set_isConnectedRef false (setConnected false st)))).
Proof. done. Qed.

Lemma stopStreaming_no_timer st :
  timers_owned st → timers (browser (stopStreaming st)) = ∅.
Proof.
  intros Hown. apply set_eq. intros h. split; [|set_solver].
  intros Hh. exfalso.
  pose proof (stopStreaming_timers st h Hh) as Hin.
  destruct (stopStreaming_releases st) as (_ & Hc & _).
  apply (Hc h (Hown h Hin)), Hh.
Qed.

Lemma timers_owned_stopStreaming st : timers_owned st → timers_owned (stopStreaming st).
Proof. intros Hown h. rewrite stopStreaming_no_timer by done. set_solver. Qed.

Lemma timers_owned_resolved n st :
  timers_owned st → timers_owned (startStreaming_resolved n st).
Proof.
  intros Hown h. unfold startStreaming_resolved.
  destruct (videoRef (refs st)) as [v|] eqn:Hv;
    destruct (intervalRef (refs st)) as [h0|] eqn:Hi; simpl;
    rewrite ?Hv, ?Hi; simpl; rewrite ?Hi; simpl;
    intros Hh; apply elem_of_union in Hh as [Hh|Hh];
    try (apply elem_of_singleton in Hh; by subst);
    try apply elem_of_difference in Hh as [Hh Hne];
    specialize (Hown h Hh); rewrite Hi in Hown; try done;
    injection Hown as ->; set_solver.
Qed.

Lemma timers_owned_handle e st :
  timers_owned st → timers_owned (handle SOCKET_URL e st).
Proof.
  intros Hown. destruct e; simpl.
  - unfold mount. destruct (truthy_opt_str token); [|done].
    destruct (Socket.connectSocket _ _ _) as [[h|] tr]; exact Hown.
  - apply timers_owned_stopStreaming in Hown.
    destruct (cleanup_cases st) as [-> | ->]; [exact Hown|].
    rewrite on_disconnect_unfold. by apply timers_owned_stopStreaming.
  - unfold link. by destruct (socket (cells st)).
  - rewrite on_disconnect_unfold. apply timers_owned_stopStreaming.
    unfold link. by destruct (socket (cells st)).
  - unfold on_deploy_assigned, startStreaming. simpl.
    by destruct (mediaDevices (browser st)).
  - rewrite on_deploy_stop_unfold. by apply timers_owned_stopStreaming.
  - done.
  - destruct (pending (browser st)); [done|]. by apply timers_owned_resolved.
  - by destruct (pending (browser st)).
  - destruct (videoRef (refs st)) as [v|]; [|done].
    destruct (onloadedmetadata v); [|done]. by destruct play_ok.
  - unfold render.
    destruct (streaming (cells st) && _); [done|].
    by destruct (videoRef (refs st)).
Qed.

(** In every state the page can reach, at most the timer held in
    [intervalRef] is scheduled. *)
Lemma timers_owned_run es : ∀ st,
  timers_owned st → timers_owned (run SOCKET_URL es st).
Proof.
  induction es as [|e es IH]; intros st Hown; [done|].
  simpl. apply IH. by apply timers_owned_handle.
Qed.

Lemma timers_owned_initial media : timers_owned (initial media).
Proof. intros h Hh. set_solver. Qed.

(** The failure path of [startStreaming] schedules nothing. *)
Lemma startStreaming_catch_effect message st :
  status (stats (cells (startStreaming_catch message st))) = "ERROR"
  ∧ refs (startStreaming_catch message st) = refs st
  ∧ timers (browser (startStreaming_catch message st)) = timers (browser st)
  ∧ streams (browser (startStreaming_catch message st)) = streams (browser st)
  ∧ alerts (browser (startStreaming_catch message st))
    = (alerts (browser st)
       ++ [("Failed to access webcam: " ++ message
            ++ ". Please grant camera permissions.")%string])%list.
Proof. done. Qed.

(** A rejection that arrives later, with other events in between,
    ends in the same way. *)
Lemma rejection_sets_error message st :
  (0 < pending (browser st))%nat →
  status (stats (cells (handle SOCKET_URL (MediaRejected message) st))) = "ERROR"
  ∧ timers (browser (handle SOCKET_URL (MediaRejected message) st)) = timers (browser st)
  ∧ refs (handle SOCKET_URL (MediaRejected message) st) = refs st.
Proof. simpl. destruct (pending (browser st)); [lia|done]. Qed.
End CameraFacts.

(** What every stop trigger does release.  Each of the three (the
    [deploy:stop] command, the transport's [disconnect], the cleanup of
    the effect) runs [stopStreaming] before its handler returns:
    afterwards [intervalRef] is null and the timer it held is no longer
    scheduled, [streamRef] is null and every track of the stream it held
    is stopped.  A stream [streamRef] no longer holds is not reached. *)
Theorem stop_trigger_releases (t : CameraClient.StopTrigger) (st : CameraClient.State) :
  let st' := CameraClient.stop_handler t st in
  CameraClient.intervalRef (CameraClient.refs st') = None
  ∧ (∀ h, CameraClient.intervalRef (CameraClient.refs st) = Some h → cancelled st' h)
  ∧ CameraClient.streamRef (CameraClient.refs st') = None
  ∧ (∀ s, CameraClient.streamRef (CameraClient.refs st) = Some s → all_stopped st' s).
Proof.
  destruct t; simpl.
  - rewrite on_deploy_stop_unfold.
    exact (stopStreaming_releases
             (CameraClient.setStatus "STOPPED" (CameraClient.setDeployed false st))).
  - rewrite on_disconnect_unfold.
    exact (stopStreaming_releases
             (CameraClient.setStatus "DISCONNECTED"
                (CameraClient.setDeployed false
                   (CameraClient.set_isConnectedRef false
                      (CameraClient.setConnected false st))))).
  - destruct (cleanup_cases st) as [-> | ->].
    + exact (stopStreaming_releases st).
    + rewrite on_disconnect_unfold.
      exact (stopStreaming_again
               (fun p => CameraClient.setStatus "DISCONNECTED"
                           (CameraClient.setDeployed false
                              (CameraClient.set_isConnectedRef false
                                 (CameraClient.setConnected false
                                    (CameraClient.with_transport
                                       Socket.disconnectSocket p)))))
               st eq_refl eq_refl).
Qed.

(** A camera streaming with timer 1 and a two-track stream 0, under each
    trigger. *)
Lemma stop_trigger_releases_witness :
  let st := CameraClient.run "http://hub:8000"
              [ CameraClient.Mount (Some "jwt"); CameraClient.Connect;
                CameraClient.DeployAssigned; CameraClient.MediaResolved 2 ]
              (CameraClient.initial true) in
  CameraClient.intervalRef (CameraClient.refs st) = Some 1%positive
  ∧ CameraClient.streamRef (CameraClient.refs st) = Some 0%nat
  ∧ CameraClient.tracks_of st 0 = [CameraClient.Live; CameraClient.Live]
  ∧ ∀ t, cancelled (CameraClient.stop_handler t st) 1%positive
         ∧ all_stopped (CameraClient.stop_handler t st) 0%nat.
Proof.
  intros st. split; [reflexivity|]. split; [reflexivity|]. split; [reflexivity|].
  intros t. destruct (stop_trigger_releases t st) as (_ & Hc & _ & Hs).
  split; [apply Hc|apply Hs]; reflexivity.
Defined.

(** In a state reached from the initial one, no timer at all is
    scheduled once a stop trigger has been handled. *)
Lemma no_timer_after_stop (SOCKET_URL : string) (media : bool)
    (es : list CameraClient.Event) (t : CameraClient.StopTrigger) :
  CameraClient.timers
    (CameraClient.browser
       (CameraClient.stop_handler t
          (CameraClient.run SOCKET_URL es (CameraClient.initial media)))) = ∅.
Proof.
  pose proof (timers_owned_run SOCKET_URL es _ (timers_owned_initial media)) as Hown.
  destruct t; unfold CameraClient.stop_handler.
  - rewrite on_deploy_stop_unfold. by apply stopStreaming_no_timer.
  - rewrite on_disconnect_unfold. by apply stopStreaming_no_timer.
  - destruct (cleanup_cases
                (CameraClient.run SOCKET_URL es (CameraClient.initial media)))
      as [-> | ->].
    + exact (stopStreaming_no_timer _ Hown).
    + rewrite on_disconnect_unfold. apply stopStreaming_no_timer.
      exact (timers_owned_stopStreaming _ Hown).
Qed.

(** A stream that [streamRef] no longer holds is out of reach of
    [stopStreaming]: when two [deploy:assigned] commands are both served
    before a stop, the first stream stays live. *)
Example overwritten_stream_stays_live :
  let st := CameraClient.run "http://hub:8000"
              [ CameraClient.DeployAssigned; CameraClient.DeployAssigned;
                CameraClient.MediaResolved 1; CameraClient.MediaResolved 1;
                CameraClient.DeployStop ]
              (CameraClient.initial true) in
  CameraClient.tracks_of st 0 = [CameraClient.Live]
  ∧ CameraClient.tracks_of st 1 = [CameraClient.Ended]
  ∧ CameraClient.timers (CameraClient.browser st) = ∅.
Proof. vm_compute. done. Qed.

(** C3.  The code at the failing input: the camera is deployed and its
    stream acquired, a second [deploy:assigned] arrives and its stream
    is acquired too ([startStreaming] clears the previous timer but
    overwrites [streamRef] without stopping the previous stream), and
    then any of the three stop triggers is handled.  The timer is
    cancelled and the second stream is stopped, but the track of the
    first acquired stream is still live when the handler has returned:
    the capture device is not released. *)
Theorem stop_trigger_leaves_stream_live (t : CameraClient.StopTrigger) :
  let st := CameraClient.run "http://hub:8000"
              [ CameraClient.Mount (Some "jwt"); CameraClient.Connect;
                CameraClient.DeployAssigned; CameraClient.MediaResolved 1;
                CameraClient.LoadedMetadata true;
                CameraClient.DeployAssigned; CameraClient.MediaResolved 1 ]
              (CameraClient.initial true) in
  let st' := CameraClient.stop_handler t st in
  CameraClient.tracks_of st 0 = [CameraClient.Live]
  ∧ CameraClient.tracks_of st 1 = [CameraClient.Live]
  ∧ CameraClient.streamRef (CameraClient.refs st) = Some 1%nat
  ∧ CameraClient.timers (CameraClient.browser st') = ∅
  ∧ CameraClient.intervalRef (CameraClient.refs st') = None
  ∧ CameraClient.streamRef (CameraClient.refs st') = None
  ∧ CameraClient.tracks_of st' 1 = [CameraClient.Ended]
  ∧ CameraClient.tracks_of st' 0 = [CameraClient.Live].
Proof. destruct t; vm_compute; done. Qed.

(** A stop that arrives while [getUserMedia] is still pending finds
    nothing to release; the stream and the timer created when the
    promise is fulfilled afterwards are then held by a camera that is
    not deployed. *)
Example stop_during_acquisition :
  let st := CameraClient.run "http://hub:8000"
              [ CameraClient.DeployAssigned; CameraClient.DeployStop;
                CameraClient.MediaResolved 1 ]
              (CameraClient.initial true) in
  CameraClient.deployed (CameraClient.cells st) = false
  ∧ CameraClient.intervalRef (CameraClient.refs st) = Some 1%positive
  ∧ CameraClient.timers (CameraClient.browser st) = {[ 1%positive ]}
  ∧ CameraClient.tracks_of st 0 = [CameraClient.Live].
Proof. vm_compute. done. Qed.

(** C7.  After a [deploy:assigned] command, when the capture device
    cannot be acquired (either [getUserMedia] does not exist, so that
    [startStreaming] throws before the request, or the request is
    rejected), the status is "ERROR" and no timer has been scheduled:
    the timers and both handles are as before the command, and one
    alert reports the failure. *)
Theorem deploy_acquisition_failure (SOCKET_URL message : string)
    (st : CameraClient.State) :
  let st1 := CameraClient.handle SOCKET_URL CameraClient.DeployAssigned st in
  let st2 := if CameraClient.mediaDevices (CameraClient.browser st)
             then CameraClient.handle SOCKET_URL (CameraClient.MediaRejected message) st1
             else st1 in
  CameraClient.status (CameraClient.stats (CameraClient.cells st2)) = "ERROR"
  ∧ CameraClient.timers (CameraClient.browser st2)
    = CameraClient.timers (CameraClient.browser st)
  ∧ CameraClient.intervalRef (CameraClient.refs st2)
    = CameraClient.intervalRef (CameraClient.refs st)
  ∧ CameraClient.streamRef (CameraClient.refs st2)
    = CameraClient.streamRef (CameraClient.refs st)
  ∧ length (CameraClient.alerts (CameraClient.browser st2))
    = S (length (CameraClient.alerts (CameraClient.browser st))).
Proof.
  simpl. unfold CameraClient.on_deploy_assigned, CameraClient.startStreaming. simpl.
  destruct (CameraClient.mediaDevices (CameraClient.browser st)); simpl;
    rewrite length_app; simpl; repeat split; lia.
Qed.

(** From the initial state: the camera ends in "ERROR" with no timer,
    with and without [getUserMedia]. *)
Example deploy_denied_example :
  let st := CameraClient.run "http://hub:8000"
              [ CameraClient.Mount (Some "jwt"); CameraClient.Connect;
                CameraClient.DeployAssigned;
                CameraClient.MediaRejected "Permission denied" ]
              (CameraClient.initial true) in
  CameraClient.status (CameraClient.stats (CameraClient.cells st)) = "ERROR"
  ∧ CameraClient.timers (CameraClient.browser st) = ∅
  ∧ CameraClient.intervalRef (CameraClient.refs st) = None
  ∧ CameraClient.alerts (CameraClient.browser st)
    = ["Failed to access webcam: Permission denied. Please grant camera permissions."].
Proof. vm_compute. done. Qed.

Example deploy_unsupported_example :
  let st := CameraClient.run "http://hub:8000"
              [ CameraClient.Mount (Some "jwt"); CameraClient.Connect;
                CameraClient.DeployAssigned ]
              (CameraClient.initial false) in
  CameraClient.status (CameraClient.stats (CameraClient.cells st)) = "ERROR"
  ∧ CameraClient.timers (CameraClient.browser st) = ∅
  ∧ CameraClient.intervalRef (CameraClient.refs st) = None
  ∧ CameraClient.alerts (CameraClient.browser st)
    = ["Failed to access webcam: getUserMedia is not supported in this browser. Please grant camera permissions."].
Proof. vm_compute. done. Qed.

(* ================================================================== *)
(** ** Further properties of the transport session *)
(* ================================================================== *)
Section SessionLifecycle.
Context {Data : Type}.
Variable SOCKET_URL : string.
Implicit Types st : Socket.State Data.

(** [disconnectSocket] as a change of the module variable and of
    the flag of the client it held. *)
Lemma disconnectSocket_fields st :
  Socket.socket (Socket.disconnectSocket st) = None
  ∧ Socket.handshakes (Socket.disconnectSocket st) = Socket.handshakes st
  ∧ Socket.wire (Socket.disconnectSocket st) = Socket.wire st
  ∧ Socket.heap (Socket.disconnectSocket st)
    = match Socket.socket st with
      | Some h => alter (fun c => {| Socket.io_connected := false;
                                     Socket.io_auth := Socket.io_auth c;
                                     Socket.io_listeners := Socket.io_listeners c |})
                        h (Socket.heap st)
      | None => Socket.heap st
      end.
Proof.
  unfold Socket.disconnectSocket.
  destruct (Socket.socket st) as [h|] eqn:Hs; [|done].
  by destruct (Socket.socket_connected _).
Qed.

Lemma disconnectSocket_socket st :
  Socket.socket (Socket.disconnectSocket st) = None.
Proof. apply disconnectSocket_fields. Qed.

Lemma disconnectSocket_not_connected st :
  Socket.isConnected (Socket.disconnectSocket st) = false.
Proof.
  unfold Socket.isConnected, Socket.socket_connected.
  by rewrite disconnectSocket_socket.
Qed.

Lemma disconnectSocket_handshakes st :
  Socket.handshakes (Socket.disconnectSocket st) = Socket.handshakes st.
Proof. apply disconnectSocket_fields. Qed.


(** The listeners of a client after the four [socket.on] calls. *)
Lemma on_lookup h ev st :
  Socket.heap (Socket.on h ev st) !! h
  = (fun c => {| Socket.io_connected := Socket.io_connected c;
                 Socket.io_auth := Socket.io_auth c;
                 Socket.io_listeners := (Socket.io_listeners c ++ [ev])%list |})
    <$> Socket.heap st !! h.
Proof. unfold Socket.on. simpl. apply lookup_alter_eq. Qed.

(** The client a [connectSocket] with a token constructs when the
    session is not connected. *)
Lemma connectSocket_new_client t st :
  Socket.isConnected st = false → truthy_str t = true →
  (Socket.connectSocket SOCKET_URL (Some t) st).1 = Some (Socket.handshakes st)
  ∧ Socket.handshakes (Socket.connectSocket SOCKET_URL (Some t) st).2
    = S (Socket.handshakes st)
  ∧ Socket.isConnected (Socket.connectSocket SOCKET_URL (Some t) st).2 = false.
Proof.
  unfold Socket.isConnected, Socket.connectSocket. intros -> ->. simpl.
  split; [done|]. split; [done|].
  unfold Socket.socket_connected. simpl.
  by rewrite !lookup_alter_eq, lookup_insert_eq.
Qed.

Lemma on_lookup_ne h h' ev st :
  h ≠ h' → Socket.heap (Socket.on h ev st) !! h' = Socket.heap st !! h'.
Proof. intros Hne. unfold Socket.on. simpl. by apply lookup_alter_ne. Qed.
End SessionLifecycle.

(** X1.  [connectSocket] called without a usable token ([null],
    [undefined] or the empty string) while the session is not connected
    returns [null]: the constructor is not called, the module's socket
    and all clients stay as they were, nothing is sent, and the last
    console entry is the error "Cannot connect: No token provided!". *)
Theorem connectSocket_without_token {Data : Type} (SOCKET_URL : string)
    (token : option string) (st : Socket.State Data) :
  Socket.isConnected st = false →
  truthy_opt_str token = false →
  (Socket.connectSocket SOCKET_URL token st).1 = None
  ∧ Socket.handshakes (Socket.connectSocket SOCKET_URL token st).2 = Socket.handshakes st
  ∧ Socket.socket (Socket.connectSocket SOCKET_URL token st).2 = Socket.socket st
  ∧ Socket.heap (Socket.connectSocket SOCKET_URL token st).2 = Socket.heap st
  ∧ Socket.wire (Socket.connectSocket SOCKET_URL token st).2 = Socket.wire st
  ∧ last (Socket.console (Socket.connectSocket SOCKET_URL token st).2)
    = Some (ConsoleError ["❌ Cannot connect: No token provided!"]).
Proof.
  unfold Socket.isConnected, Socket.connectSocket, truthy_opt_str.
  intros -> Htok.
  destruct token as [t|]; [rewrite Htok|]; simpl;
    repeat (split; [reflexivity|]); apply last_snoc.
Qed.

Lemma connectSocket_without_token_witness :
  (Socket.connectSocket (Data:=unit) "http://hub:8000" (Some "") Socket.initial).1 = None
  ∧ Socket.handshakes
      (Socket.connectSocket (Data:=unit) "http://hub:8000" (Some "") Socket.initial).2
    = Socket.handshakes (Socket.initial (Data:=unit))
  ∧ Socket.socket
      (Socket.connectSocket (Data:=unit) "http://hub:8000" (Some "") Socket.initial).2
    = Socket.socket (Socket.initial (Data:=unit))
  ∧ Socket.heap
      (Socket.connectSocket (Data:=unit) "http://hub:8000" (Some "") Socket.initial).2
    = Socket.heap (Socket.initial (Data:=unit))
  ∧ Socket.wire
      (Socket.connectSocket (Data:=unit) "http://hub:8000" (Some "") Socket.initial).2
    = Socket.wire (Socket.initial (Data:=unit))
  ∧ last (Socket.console
            (Socket.connectSocket (Data:=unit) "http://hub:8000" (Some "") Socket.initial).2)
    = Some (ConsoleError ["❌ Cannot connect: No token provided!"]).
Proof.
  apply (connectSocket_without_token "http://hub:8000" (Some "")
           (Socket.initial (Data:=unit))); reflexivity.
Defined.

(** X2.  [connectSocket] called with a token while the session is not
    connected constructs one client, which carries the token, is not yet
    connected and has the module's four listeners; it becomes the
    module's socket and is the value returned.  Every other client,
    the previous module socket included, is left exactly as it was: it
    is not disconnected. *)
Theorem connectSocket_opens_session {Data : Type} (SOCKET_URL t : string)
    (st : Socket.State Data) :
  Socket.isConnected st = false →
  truthy_str t = true →
  let h := Socket.handshakes st in
  let st' := (Socket.connectSocket SOCKET_URL (Some t) st).2 in
  (Socket.connectSocket SOCKET_URL (Some t) st).1 = Some h
  ∧ Socket.socket st' = Some h
  ∧ Socket.handshakes st' = S h
  ∧ Socket.heap st' !! h
    = Some {| Socket.io_connected := false; Socket.io_auth := t;
              Socket.io_listeners := own_listeners |}
  ∧ (∀ h', h' ≠ h → Socket.heap st' !! h' = Socket.heap st !! h')
  ∧ Socket.wire st' = Socket.wire st.
Proof.
  unfold Socket.isConnected, Socket.connectSocket. intros -> ->. simpl.
  split; [done|]. split; [done|]. split; [done|]. split.
  - rewrite !lookup_alter_eq, lookup_insert_eq. done.
  - split; [|done]. intros h' Hne.
    rewrite !lookup_alter_ne by done. by rewrite lookup_insert_ne.
Qed.

Lemma connectSocket_opens_session_witness :
  let st := Socket.server_disconnect 0
              (Socket.server_connect 0
                 (Socket.connectSocket (Data:=unit) "http://hub:8000" (Some "old")
                    Socket.initial).2) in
  let st' := (Socket.connectSocket "http://hub:8000" (Some "jwt") st).2 in
  (Socket.connectSocket "http://hub:8000" (Some "jwt") st).1 = Some 1%nat
  ∧ Socket.socket st' = Some 1%nat
  ∧ Socket.handshakes st' = 2%nat
  ∧ Socket.heap st' !! 1%nat
    = Some {| Socket.io_connected := false; Socket.io_auth := "jwt";
              Socket.io_listeners := own_listeners |}
  ∧ (∀ h', h' ≠ 1%nat → Socket.heap st' !! h' = Socket.heap st !! h')
  ∧ Socket.wire st' = Socket.wire st.
Proof.
  intros st st'.
  apply (connectSocket_opens_session "http://hub:8000" "jwt" st); reflexivity.
Defined.


(** X4.  A [connectSocket] with a token that follows [disconnectSocket]
    always performs a handshake and returns the new client, whether or
    not the session was connected before the disconnect. *)
Theorem reconnect_after_disconnect {Data : Type} (SOCKET_URL t : string)
    (st : Socket.State Data) :
  truthy_str t = true →
  let st' := Socket.disconnectSocket st in
  (Socket.connectSocket SOCKET_URL (Some t) st').1 = Some (Socket.handshakes st)
  ∧ Socket.handshakes (Socket.connectSocket SOCKET_URL (Some t) st').2
    = S (Socket.handshakes st)
  ∧ Socket.isConnected (Socket.connectSocket SOCKET_URL (Some t) st').2 = false.
Proof.
  intros Ht st'.
  destruct (connectSocket_new_client SOCKET_URL t st'
              (disconnectSocket_not_connected st) Ht) as (Hr & Hh & Hc).
  subst st'. rewrite disconnectSocket_handshakes in *. done.
Qed.

Lemma reconnect_after_disconnect_witness :
  let st := Socket.server_connect 0
              (Socket.connectSocket (Data:=unit) "http://hub:8000" (Some "jwt")
                 Socket.initial).2 in
  let st' := Socket.disconnectSocket st in
  (Socket.connectSocket "http://hub:8000" (Some "jwt") st').1 = Some 1%nat
  ∧ Socket.handshakes (Socket.connectSocket "http://hub:8000" (Some "jwt") st').2 = 2%nat
  ∧ Socket.isConnected (Socket.connectSocket "http://hub:8000" (Some "jwt") st').2 = false.
Proof.
  intros st st'.
  apply (reconnect_after_disconnect "http://hub:8000" "jwt" st). reflexivity.
Defined.

(** X5.  [emitEvent] on a connected session hands exactly one message
    to the module's socket, with the event name and the data given, and
    writes nothing to the console; the session itself is unchanged. *)
Theorem emitEvent_connected_sends {Data : Type} (event : string) (data : Data)
    (st : Socket.State Data) :
  Socket.isConnected st = true →
  ∃ h, Socket.socket st = Some h
       ∧ Socket.wire (Socket.emitEvent event data st)
         = (Socket.wire st ++ [(h, event, data)])%list
       ∧ Socket.console (Socket.emitEvent event data st) = Socket.console st
       ∧ Socket.heap (Socket.emitEvent event data st) = Socket.heap st
       ∧ Socket.socket (Socket.emitEvent event data st) = Some h.
Proof.
  unfold Socket.isConnected, Socket.emitEvent. intros Hc. rewrite Hc.
  unfold Socket.socket_connected in Hc.
  destruct (Socket.socket st) as [h|]; [|done]. by exists h.
Qed.

Lemma emitEvent_connected_sends_witness :
  let st := Socket.server_connect 0
              (Socket.connectSocket (Data:=nat) "http://hub:8000" (Some "jwt")
                 Socket.initial).2 in
  ∃ h, Socket.socket st = Some h
       ∧ Socket.wire (Socket.emitEvent "deploy_start" 7%nat st)
         = (Socket.wire st ++ [(h, "deploy_start", 7%nat)])%list
       ∧ Socket.console (Socket.emitEvent "deploy_start" 7%nat st) = Socket.console st
       ∧ Socket.heap (Socket.emitEvent "deploy_start" 7%nat st) = Socket.heap st
       ∧ Socket.socket (Socket.emitEvent "deploy_start" 7%nat st) = Some h.
Proof.
  intros st. apply (emitEvent_connected_sends "deploy_start" 7%nat st). reflexivity.
Defined.

(* ================================================================== *)
(** ** Further properties of the overlay renderer *)
(* ================================================================== *)
Section OverlayShape.
Import VideoTile.
Variable measureText : string -> string -> Z.
Variable percent : Q -> string.
Implicit Types (c : Canvas) (ls : list string) (cs : list Q) (bs : list Box).

Lemma draw_box_frame ls cs c i box :
  width (draw_box measureText percent ls cs c i box) = width c
  ∧ height (draw_box measureText percent ls cs c i box) = height c
  ∧ has_2d (draw_box measureText percent ls cs c i box) = has_2d c.
Proof. unfold draw_box. by destruct (colorMap (label_at ls i)). Qed.

(** The loop keeps the size of the canvas and what was on it, and adds
    three primitives per box. *)
Lemma forEach_box_shape ls cs bs : ∀ i c,
  width (forEach_box measureText percent ls cs bs i c) = width c
  ∧ height (forEach_box measureText percent ls cs bs i c) = height c
  ∧ ∃ rest,
      painted (forEach_box measureText percent ls cs bs i c) = (painted c ++ rest)%list
      ∧ length rest = (3 * length bs)%nat.
Proof.
  induction bs as [|b bs IH]; intros i c.
  - split; [done|]. split; [done|]. exists []. by rewrite app_nil_r.
  - cbn [forEach_box].
    destruct (IH (S i) (draw_box measureText percent ls cs c i b))
      as (Hw & Hh & rest & Hp & Hlen).
    destruct (draw_box_frame ls cs c i b) as (Hw' & Hh' & _).
    split; [congruence|]. split; [congruence|].
    rewrite draw_box_painted, <- app_assoc in Hp.
    eexists. split; [exact Hp|]. simpl. rewrite Hlen. lia.
Qed.
End OverlayShape.

(** X6.  With the three arrays present, [drawBoundingBoxes] paints
    three primitives for each box (a stroked rectangle, a filled chip
    and a text) after what the canvas already holds, and leaves the
    size of the canvas alone; [labels] and [confidences] entries beyond
    the number of boxes are never drawn. *)
Theorem overlay_three_per_box (measureText : string -> string -> Z)
    (percent : Q -> string) (ds : DetectionSet) (bs : list Box)
    (ls : list string) (cs : list Q) (c : VideoTile.Canvas) :
  boxes ds = Some bs → labels ds = Some ls → confidences ds = Some cs →
  ∃ c' rest,
    VideoTile.drawBoundingBoxes measureText percent ds c = VideoTile.Returned c'
    ∧ VideoTile.painted c' = (VideoTile.painted c ++ rest)%list
    ∧ length rest = (3 * length bs)%nat
    ∧ VideoTile.width c' = VideoTile.width c
    ∧ VideoTile.height c' = VideoTile.height c.
Proof.
  intros Hb Hl Hc. unfold VideoTile.drawBoundingBoxes. rewrite Hb, Hl, Hc.
  destruct bs as [|b bs'].
  - exists c, []. rewrite app_nil_r. done.
  - destruct (forEach_box_shape measureText percent ls cs (b :: bs') 0%nat c)
      as (Hw & Hh & rest & Hp & Hlen).
    eexists _, rest. done.
Qed.

Lemma overlay_three_per_box_witness :
  let measureText := fun (_ text : string) => 7 * Z.of_nat (String.length text) in
  let percent := fun q : Q => if Qeq_bool q 0 then "0" else "87" in
  let bs := [ {| x1 := 10; y1 := 10; x2 := 50; y2 := 50 |} ] in
  let ls := ["Weapon"; "Human"; "Vehicle"] in
  let cs := [(87 # 100)%Q; (1 # 2)%Q] in
  let ds := {| count := Some 3; boxes := Some bs; labels := Some ls;
               confidences := Some cs |} in
  let c := {| VideoTile.width := 640; VideoTile.height := 480;
              VideoTile.has_2d := true; VideoTile.ctx := VideoTile.default_ctx;
              VideoTile.painted := [] |} in
  ∃ c' rest,
    VideoTile.drawBoundingBoxes measureText percent ds c = VideoTile.Returned c'
    ∧ VideoTile.painted c' = (VideoTile.painted c ++ rest)%list
    ∧ length rest = (3 * length bs)%nat
    ∧ VideoTile.width c' = VideoTile.width c
    ∧ VideoTile.height c' = VideoTile.height c.
Proof.
  intros measureText percent bs ls cs ds c.
  apply (overlay_three_per_box measureText percent ds bs ls cs c); reflexivity.
Defined.

(** The colour looked up for a label. *)
Lemma colorMap_palette l colour :
  (l, colour) ∈ palette → VideoTile.colorMap l = Some colour.
Proof.
  unfold palette. rewrite !elem_of_cons, elem_of_nil.
  intros [[= -> ->]|[[= -> ->]|[[= -> ->]|[]]]]; reflexivity.
Qed.

Lemma colorMap_default l :
  (∀ colour, (l, colour) ∉ palette) → l ∉ VideoTile.inherited_names →
  VideoTile.colorMap l = Some "#00FF00".
Proof.
  intros Hp Hi. unfold VideoTile.colorMap.
  destruct (String.eqb_spec l "Human") as [->|_].
  { exfalso. apply (Hp "#FFFF00"). unfold palette. set_solver. }
  destruct (String.eqb_spec l "Weapon") as [->|_].
  { exfalso. apply (Hp "#FF0000"). unfold palette. set_solver. }
  destruct (String.eqb_spec l "Vehicle") as [->|_].
  { exfalso. apply (Hp "#0000FF"). unfold palette. set_solver. }
  destruct (existsb (String.eqb l) VideoTile.inherited_names) eqn:He; [|done].
  apply existsb_exists in He as (x & Hx & Heq).
  apply String.eqb_eq in Heq as <-. exfalso. apply Hi. by apply list_elem_of_In.
Qed.

(** X7.  The rectangle and the chip of box [i] take their colour from
    the label at [i]: yellow for "Human", red for "Weapon", blue for
    "Vehicle"; any other label that is neither empty nor the name of a
    property every object inherits gets green. *)
Theorem overlay_palette (measureText : string -> string -> Z)
    (percent : Q -> string) (ds : DetectionSet) (bs : list Box)
    (ls : list string) (cs : list Q) (c : VideoTile.Canvas)
    (i : nat) (box : Box) (l colour : string) :
  boxes ds = Some bs → labels ds = Some ls → confidences ds = Some cs →
  bs !! i = Some box → ls !! i = Some l →
  (l, colour) ∈ palette
  ∨ (colour = "#00FF00" ∧ l ≠ "" ∧ (∀ col, (l, col) ∉ palette)
     ∧ l ∉ VideoTile.inherited_names) →
  ∃ c',
    VideoTile.drawBoundingBoxes measureText percent ds c = VideoTile.Returned c'
    ∧ VideoTile.painted c' !! (length (VideoTile.painted c) + 3 * i)%nat
      = Some (VideoTile.StrokeRect colour 3 (x1 box) (y1 box)
                (x2 box - x1 box) (y2 box - y1 box))
    ∧ VideoTile.painted c' !! (length (VideoTile.painted c) + 3 * i + 1)%nat
      = Some (VideoTile.FillRect colour (x1 box) (y1 box - 20)
                (measureText "14px Arial"
                   (VideoTile.labelText percent l (VideoTile.conf_at cs i)) + 10) 20).
Proof.
  intros Hb Hl Hc Hi Hli Hcol.
  assert (VideoTile.label_at ls i = l ∧ VideoTile.colorMap l = Some colour) as [Hlab Hmap].
  { unfold VideoTile.label_at. rewrite Hli.
    destruct Hcol as [Hp|(-> & Hne & Hp & Hin)].
    - split; [|by apply colorMap_palette].
      revert Hp. unfold palette. rewrite !elem_of_cons, elem_of_nil.
      intros [[= -> ->]|[[= -> ->]|[[= -> ->]|[]]]]; reflexivity.
    - split; [|by apply colorMap_default]. by destruct l. }
  unfold VideoTile.drawBoundingBoxes. rewrite Hb, Hl, Hc.
  destruct bs as [|b bs']; [done|].
  destruct (forEach_box_painted measureText percent ls cs (b :: bs') 0%nat c)
    as (rest & Hp & Hrest).
  destruct (Hrest i box Hi) as (s & f & H0 & H1 & _ & Hsf).
  simpl in H0, H1, Hsf. rewrite Hlab in H1, Hsf.
  destruct (Hsf colour Hmap) as [-> ->].
  eexists. split; [reflexivity|]. rewrite Hp. split.
  - rewrite lookup_app_r by lia. rewrite <- H0. f_equal. lia.
  - rewrite <- Nat.add_assoc, lookup_app_r by lia. rewrite <- H1. f_equal. lia.
Qed.

Lemma overlay_palette_witness :
  let measureText := fun (_ text : string) => 7 * Z.of_nat (String.length text) in
  let percent := fun q : Q => if Qeq_bool q 0 then "0" else "87" in
  let bs := [ {| x1 := 10; y1 := 10; x2 := 50; y2 := 50 |} ] in
  let ds := {| count := Some 1; boxes := Some bs; labels := Some ["Weapon"];
               confidences := Some [(87 # 100)%Q] |} in
  let c := {| VideoTile.width := 640; VideoTile.height := 480;
              VideoTile.has_2d := true; VideoTile.ctx := VideoTile.default_ctx;
              VideoTile.painted := [] |} in
  ∃ c',
    VideoTile.drawBoundingBoxes measureText percent ds c = VideoTile.Returned c'
    ∧ VideoTile.painted c' !! (length (VideoTile.painted c) + 3 * 0)%nat
      = Some (VideoTile.StrokeRect "#FF0000" 3 10 10 (50 - 10) (50 - 10))
    ∧ VideoTile.painted c' !! (length (VideoTile.painted c) + 3 * 0 + 1)%nat
      = Some (VideoTile.FillRect "#FF0000" 10 (10 - 20)
                (measureText "14px Arial"
                   (VideoTile.labelText percent "Weapon"
                      (VideoTile.conf_at [(87 # 100)%Q] 0)) + 10) 20).
Proof.
  intros measureText percent bs ds c.
  apply (overlay_palette measureText percent ds bs ["Weapon"] [(87 # 100)%Q] c
           0%nat {| x1 := 10; y1 := 10; x2 := 50; y2 := 50 |} "Weapon" "#FF0000");
    try reflexivity.
  left. unfold palette. apply list_elem_of_further, list_elem_of_here.
Defined.

(** X8.  Whenever the effect hands a source to the decoder it is a data
    URL: a frame that already starts with "data:image" is passed as it
    is, any other frame is prefixed with "data:image/jpeg;base64,". *)
Theorem image_source_data_url (detection : option DetectionPayload)
    (canvasRef : option VideoTile.Canvas) (src : string) :
  VideoTile.image_source detection canvasRef = Some src →
  String.prefix "data:image" src = true
  ∧ ∃ d f, detection = Some d ∧ frame d = Some f
           ∧ src = if String.prefix "data:image" f then f
                   else "data:image/jpeg;base64," ++ f.
Proof.
  unfold VideoTile.image_source.
  destruct detection as [d|]; [|done]. destruct canvasRef as [c|]; [|done].
  destruct (frame d) as [f|] eqn:Hf; [|done].
  destruct (truthy_str f && VideoTile.has_2d c); [|done].
  intros [= <-]. split.
  - destruct (String.prefix "data:image" f) eqn:Hp; [exact Hp|reflexivity].
  - by exists d, f.
Qed.

Lemma image_source_data_url_witness :
  let d := {| camera_id := "cam1"; camera_sid := "1"; frame := Some "AAAA";
              detections := None; timestamp := 0 |} in
  let c := {| VideoTile.width := 300; VideoTile.height := 150;
              VideoTile.has_2d := true; VideoTile.ctx := VideoTile.default_ctx;
              VideoTile.painted := [] |} in
  String.prefix "data:image" "data:image/jpeg;base64,AAAA" = true
  ∧ ∃ d' f, Some d = Some d' ∧ frame d' = Some f
            ∧ "data:image/jpeg;base64,AAAA"
              = if String.prefix "data:image" f then f
                else "data:image/jpeg;base64," ++ f.
Proof.
  intros d c.
  apply (image_source_data_url (Some d) (Some c) "data:image/jpeg;base64,AAAA").
  reflexivity.
Defined.

(** X9.  The rendering effect returns early, leaving the canvas as it
    is and starting no decode, exactly when the detection is missing,
    its frame is missing or empty, the canvas is not mounted, or the
    canvas gives no 2d context. *)
Theorem renderFrame_guard (decode : string -> option VideoTile.Image)
    (measureText : string -> string -> Z) (percent : Q -> string)
    (detection : option DetectionPayload) (canvasRef : option VideoTile.Canvas) :
  VideoTile.renderFrame decode measureText percent detection canvasRef = None
  ↔ match detection, canvasRef with
    | Some d, Some c => truthy_opt_str (frame d) = false ∨ VideoTile.has_2d c = false
    | _, _ => True
    end.
Proof.
  unfold VideoTile.renderFrame, VideoTile.image_source, truthy_opt_str.
  destruct detection as [d|]; [|done]. destruct canvasRef as [c|]; [|done].
  destruct (frame d) as [f|]; [|by split; [left|]].
  destruct (truthy_str f), (VideoTile.has_2d c); simpl.
  - destruct (decode _); split; try done; intros [?|?]; done.
  - split; [by right|done].
  - split; [by left|done].
  - split; [by left|done].
Qed.

(** X10.  A frame that loads is drawn on a cleared canvas resized to
    the image: the result starts with the image, whatever was painted
    before (an earlier frame, its boxes, a placeholder), and two
    canvases that differ only in their previous content end up equal. *)
Theorem onload_replaces_canvas (measureText : string -> string -> Z)
    (percent : Q -> string) (d : DetectionPayload) (img : VideoTile.Image)
    (c1 c2 : VideoTile.Canvas) :
  VideoTile.has_2d c1 = VideoTile.has_2d c2 →
  VideoTile.img_onload measureText percent d img c1
  = VideoTile.img_onload measureText percent d img c2
  ∧ ∃ rest,
      VideoTile.painted (VideoTile.canvas_of
                           (VideoTile.img_onload measureText percent d img c1))
      = VideoTile.DrawImage img 0 0 :: rest
      ∧ VideoTile.width (VideoTile.canvas_of
                           (VideoTile.img_onload measureText percent d img c1))
        = VideoTile.img_width img
      ∧ VideoTile.height (VideoTile.canvas_of
                            (VideoTile.img_onload measureText percent d img c1))
        = VideoTile.img_height img.
Proof.
  intros H2d. split.
  { unfold VideoTile.img_onload, VideoTile.set_width, VideoTile.set_height. simpl.
    by rewrite H2d. }
  unfold VideoTile.img_onload, VideoTile.drawBoundingBoxes.
  destruct (detections d) as [ds|]; [|by exists []].
  destruct (boxes ds) as [[|b bs]|]; [by exists []| |by exists []].
  destruct (labels ds) as [ls|]; [|by exists []].
  destruct (confidences ds) as [cs|]; [|by exists []].
  match goal with
  | |- context [VideoTile.forEach_box _ _ ?l ?k ?b ?i ?c] =>
      destruct (forEach_box_shape measureText percent l k b i c)
        as (Hw & Hh & rest & Hp & _)
  end.
  exists rest. cbn [VideoTile.canvas_of]. rewrite Hp, Hw, Hh. done.
Qed.

Lemma onload_replaces_canvas_witness :
  let img := {| VideoTile.img_width := 640; VideoTile.img_height := 480;
                VideoTile.img_src := "data:image/jpeg;base64,AAAA" |} in
  let c1 := {| VideoTile.width := 300; VideoTile.height := 150;
               VideoTile.has_2d := true; VideoTile.ctx := VideoTile.default_ctx;
               VideoTile.painted := [VideoTile.FillText "#fff" "10px sans-serif"
                                       "Frame Load Error" 10 20] |} in
  let c2 := {| VideoTile.width := 640; VideoTile.height := 480;
               VideoTile.has_2d := true; VideoTile.ctx := VideoTile.default_ctx;
               VideoTile.painted := [] |} in
  VideoTile.img_onload (fun _ _ => 0) (fun _ => "0") weapon_seen img c1
  = VideoTile.img_onload (fun _ _ => 0) (fun _ => "0") weapon_seen img c2
  ∧ ∃ rest,
      VideoTile.painted (VideoTile.canvas_of
                           (VideoTile.img_onload (fun _ _ => 0) (fun _ => "0")
                              weapon_seen img c1))
      = VideoTile.DrawImage img 0 0 :: rest
      ∧ VideoTile.width (VideoTile.canvas_of
                           (VideoTile.img_onload (fun _ _ => 0) (fun _ => "0")
                              weapon_seen img c1))
        = VideoTile.img_width img
      ∧ VideoTile.height (VideoTile.canvas_of
                            (VideoTile.img_onload (fun _ _ => 0) (fun _ => "0")
                               weapon_seen img c1))
        = VideoTile.img_height img.
Proof.
  intros img c1 c2.
  apply (onload_replaces_canvas (fun _ _ => 0) (fun _ => "0") weapon_seen img c1 c2).
  reflexivity.
Defined.

(** X11.  When a frame loads and the detection set has a non-empty
    [boxes] array but no [labels] or no [confidences] array, the load
    handler throws a TypeError after the frame has been drawn: the
    canvas shows the frame alone, without any box. *)
Theorem onload_missing_arrays_throws (measureText : string -> string -> Z)
    (percent : Q -> string) (d : DetectionPayload) (ds : DetectionSet)
    (b : Box) (bs : list Box) (img : VideoTile.Image) (c : VideoTile.Canvas) :
  detections d = Some ds →
  boxes ds = Some (b :: bs) →
  labels ds = None ∨ confidences ds = None →
  ∃ c', VideoTile.img_onload measureText percent d img c
        = VideoTile.Uncaught "TypeError" c'
        ∧ shows_only img c'.
Proof.
  intros Hd Hb Hmiss.
  unfold VideoTile.img_onload, VideoTile.drawBoundingBoxes. rewrite Hd, Hb.
  destruct Hmiss as [-> | ->].
  - eexists. split; [reflexivity|done].
  - destruct (labels ds); eexists; (split; [reflexivity|done]).
Qed.

Lemma onload_missing_arrays_throws_witness :
  let img := {| VideoTile.img_width := 640; VideoTile.img_height := 480;
                VideoTile.img_src := "data:image/jpeg;base64,AAAA" |} in
  let ds := {| count := Some 1;
               boxes := Some [ {| x1 := 10; y1 := 10; x2 := 50; y2 := 50 |} ];
               labels := Some ["Weapon"]; confidences := None |} in
  let d := {| camera_id := "cam1"; camera_sid := "1"; frame := Some "AAAA";
              detections := Some ds; timestamp := 0 |} in
  let c := {| VideoTile.width := 300; VideoTile.height := 150;
              VideoTile.has_2d := true; VideoTile.ctx := VideoTile.default_ctx;
              VideoTile.painted := [] |} in
  ∃ c', VideoTile.img_onload (fun _ _ => 0) (fun _ => "0") d img c
        = VideoTile.Uncaught "TypeError" c'
        ∧ shows_only img c'.
Proof.
  intros img ds d c.
  apply (onload_missing_arrays_throws (fun _ _ => 0) (fun _ => "0") d ds
           {| x1 := 10; y1 := 10; x2 := 50; y2 := 50 |} [] img c);
    [reflexivity|reflexivity|right; reflexivity].
Defined.

(* ================================================================== *)
(** ** Further properties of the admin aggregator *)
(* ================================================================== *)
Section RegistryFacts.
Import AdminDashboard.
Variable SOCKET_URL : string.
Implicit Types (st : State) (l : list CameraRecord).

Lemma deployed_count_cons cam l :
  deployed_count (cam :: l)
  = (if deployed cam then 1 else 0) + deployed_count l.
Proof.
  unfold deployed_count. rewrite filter_cons.
  destruct (deployed cam); case_decide; try done; simpl; lia.
Qed.

Lemma deployed_count_nonneg l : (0 ≤ deployed_count l)%Z.
Proof. unfold deployed_count. lia. Qed.

(** Clearing the flag of some entries cannot raise the count. *)
Lemma deployed_count_stop s l :
  (deployed_count (map (fun cam => if decide (sid cam = s)
                                   then set_deployed false cam else cam) l)
   ≤ deployed_count l)%Z.
Proof.
  induction l as [|cam l IH]; [done|].
  cbn [map]. rewrite !deployed_count_cons.
  destruct (decide (sid cam = s)); simpl; destruct (deployed cam); lia.
Qed.

(** Marking the entries of an unknown sid changes nothing. *)
Lemma mark_unknown_sid s b l :
  Forall (fun cam => sid cam ≠ s) l →
  map (fun cam => if decide (sid cam = s) then set_deployed b cam else cam) l = l.
Proof.
  induction 1 as [|cam l Hcam _ IH]; [done|].
  cbn [map]. rewrite IH. by destruct (decide (sid cam = s)).
Qed.

Lemma filter_unknown_sid s l :
  Forall (fun cam => sid cam ≠ s) l → filter (fun cam => sid cam ≠ s) l = l.
Proof.
  induction 1 as [|cam l Hcam _ IH]; [done|].
  by rewrite filter_cons_True, IH.
Qed.

(** What [updateStats] writes. *)
Lemma updateStats_counts l st :
  totalCameras (stats (updateStats l st)) = Z.of_nat (length l)
  ∧ deployedCameras (stats (updateStats l st)) = deployed_count l
  ∧ totalDetections (stats (updateStats l st)) = totalDetections (stats st)
  ∧ activeThreats (stats (updateStats l st)) = activeThreats (stats st).
Proof. done. Qed.

Lemma mount_registry token st :
  cameras (mount SOCKET_URL token st) = cameras st
  ∧ detections (mount SOCKET_URL token st) = detections st
  ∧ stats (mount SOCKET_URL token st) = stats st.
Proof.
  unfold mount. destruct (truthy_opt_str token); [|done].
  destruct (Socket.connectSocket _ _ _) as [[h|] tr]; done.
Qed.

Lemma link_registry up st :
  cameras (link up st) = cameras st ∧ detections (link up st) = detections st
  ∧ stats (link up st) = stats st.
Proof. unfold link. by destruct (socket st). Qed.

Lemma unmount_registry st :
  cameras (unmount st) = cameras st ∧ detections (unmount st) = detections st
  ∧ stats (unmount st) = stats st.
Proof. unfold unmount. by destruct (Socket.socket_connected _). Qed.

Lemma registry_counted_handle e st :
  registry_counted st → registry_counted (handle SOCKET_URL e st).
Proof.
  unfold registry_counted. intros [Htot Hdep]. destruct e; cbn [handle].
  - destruct (mount_registry token st) as (-> & _ & ->). done.
  - destruct (unmount_registry st) as (-> & _ & ->). done.
  - destruct (link_registry true st) as (Hc & _ & Hs).
    unfold on_connect. simpl. by rewrite Hc, Hs.
  - destruct (link_registry false st) as (Hc & _ & Hs).
    unfold on_disconnect. simpl. by rewrite Hc, Hs.
  - simpl. split; [done|]. reflexivity.
  - simpl. split; [done|]. reflexivity.
  - simpl. split; [done|]. reflexivity.
  - simpl. split; [done|]. reflexivity.
  - done.
  - unfold handleDeploy. by destruct (not_ready st).
  - unfold handleStop. destruct (not_ready st); [done|]. simpl.
    rewrite length_map. split; [done|].
    etrans; [apply deployed_count_stop|done].
Qed.

Lemma registry_counted_run es : ∀ st,
  registry_counted st → registry_counted (run SOCKET_URL es st).
Proof.
  induction es as [|e es IH]; intros st Hst; [done|].
  simpl. apply IH. by apply registry_counted_handle.
Qed.

Lemma registry_counted_initial : registry_counted initial.
Proof. split; [done|]. unfold deployed_count. simpl. lia. Qed.

(** What a handler adds to [totalDetections]. *)
Lemma totalDetections_handle e st :
  totalDetections (stats (handle SOCKET_URL e st))
  = totalDetections (stats st)
    + match e with DetectionResult d => count_or_0 d | _ => 0 end.
Proof.
  destruct e; cbn [handle].
  - destruct (mount_registry token st) as (_ & _ & ->). lia.
  - destruct (unmount_registry st) as (_ & _ & ->). lia.
  - destruct (link_registry true st) as (_ & _ & Hs).
    unfold on_connect. simpl. rewrite Hs. lia.
  - destruct (link_registry false st) as (_ & _ & Hs).
    unfold on_disconnect. simpl. rewrite Hs. lia.
  - simpl. lia.
  - simpl. lia.
  - simpl. lia.
  - simpl. lia.
  - simpl. lia.
  - unfold handleDeploy. destruct (not_ready st); simpl; lia.
  - unfold handleStop. destruct (not_ready st); simpl; lia.
Qed.

Lemma totalDetections_run es : ∀ st,
  totalDetections (stats (run SOCKET_URL es st))
  = totalDetections (stats st) + arrived_total es.
Proof.
  induction es as [|e es IH]; intros st; [simpl; lia|].
  cbn [run foldl]. fold (run SOCKET_URL es (handle SOCKET_URL e st)).
  rewrite IH, totalDetections_handle. destruct e; simpl; lia.
Qed.
End RegistryFacts.

(** X12.  In every state the dashboard reaches from its initial state,
    [totalCameras] is the number of records in the registry. *)
Theorem totalCameras_is_registry_length (SOCKET_URL : string)
    (es : list AdminDashboard.Event) :
  let st := AdminDashboard.run SOCKET_URL es AdminDashboard.initial in
  AdminDashboard.totalCameras (AdminDashboard.stats st)
  = Z.of_nat (length (AdminDashboard.cameras st)).
Proof. apply (registry_counted_run SOCKET_URL es _ registry_counted_initial). Qed.

(** X13.  In every reachable state [deployedCameras] is at least the
    number of records flagged as deployed: [handleStop] clears flags
    without calling [updateStats], so the statistic can only lag above
    the registry, never below it. *)
Theorem deployedCameras_never_below (SOCKET_URL : string)
    (es : list AdminDashboard.Event) :
  let st := AdminDashboard.run SOCKET_URL es AdminDashboard.initial in
  (deployed_count (AdminDashboard.cameras st)
   ≤ AdminDashboard.deployedCameras (AdminDashboard.stats st))%Z.
Proof. apply (registry_counted_run SOCKET_URL es _ registry_counted_initial). Qed.

(** After a local stop the statistic is above the registry. *)
Example deployedCameras_lags_after_stop :
  let st := AdminDashboard.run "http://hub:8000"
              [ AdminDashboard.Mount (Some "jwt"); AdminDashboard.Connect;
                AdminDashboard.CameraConnected "1" "alice" "cam1";
                AdminDashboard.DeploySuccess "1";
                AdminDashboard.ClickStop "1" ]
              AdminDashboard.initial in
  deployed_count (AdminDashboard.cameras st) = 0
  ∧ AdminDashboard.deployedCameras (AdminDashboard.stats st) = 1.
Proof. vm_compute. done. Qed.

(** X14.  The handlers of [camera:list], [camera:connected],
    [camera:disconnect] and [deploy:success] leave [totalCameras] equal
    to the length of the registry they store and [deployedCameras] equal
    to the number of its deployed records, whatever the state before. *)
Theorem registry_event_refreshes_stats (SOCKET_URL : string)
    (e : AdminDashboard.Event) (st : AdminDashboard.State) :
  registry_event e = true →
  let st' := AdminDashboard.handle SOCKET_URL e st in
  AdminDashboard.totalCameras (AdminDashboard.stats st')
  = Z.of_nat (length (AdminDashboard.cameras st'))
  ∧ AdminDashboard.deployedCameras (AdminDashboard.stats st')
    = deployed_count (AdminDashboard.cameras st').
Proof. destruct e; try done; intros _; simpl; done. Qed.

Lemma registry_event_refreshes_stats_witness :
  let st := AdminDashboard.run "http://hub:8000"
              [ AdminDashboard.Mount (Some "jwt"); AdminDashboard.Connect;
                AdminDashboard.CameraConnected "1" "alice" "cam1";
                AdminDashboard.DeploySuccess "1";
                AdminDashboard.ClickStop "1" ]
              AdminDashboard.initial in
  let st' := AdminDashboard.handle "http://hub:8000"
               (AdminDashboard.CameraConnected "2" "bob" "cam2") st in
  AdminDashboard.totalCameras (AdminDashboard.stats st')
  = Z.of_nat (length (AdminDashboard.cameras st'))
  ∧ AdminDashboard.deployedCameras (AdminDashboard.stats st')
    = deployed_count (AdminDashboard.cameras st').
Proof.
  intros st.
  apply (registry_event_refreshes_stats "http://hub:8000"
           (AdminDashboard.CameraConnected "2" "bob" "cam2") st).
  reflexivity.
Defined.

(** X15.  [totalDetections] is a running sum: after any sequence of
    events from the initial state it is the sum of [detections.count]
    (0 when missing) over the [detection:result] events received;
    disconnects, stops and registry events never change it. *)
Theorem totalDetections_running_sum (SOCKET_URL : string)
    (es : list AdminDashboard.Event) :
  AdminDashboard.totalDetections
    (AdminDashboard.stats (AdminDashboard.run SOCKET_URL es AdminDashboard.initial))
  = arrived_total es.
Proof. rewrite totalDetections_run. simpl. lia. Qed.

(** X16.  A [detection:result] replaces what its camera contributed:
    afterwards the map holds the arriving payload under its
    [camera_sid], the payloads of other sids are as before, and
    [activeThreats] is the sum of the counts of the other cameras'
    payloads plus the arriving count (an earlier payload of the same
    camera no longer counts). *)
Theorem arrival_replaces_contribution (d : DetectionPayload)
    (st : AdminDashboard.State) :
  let st' := AdminDashboard.on_detection_result d st in
  AdminDashboard.detections st' !! camera_sid d = Some d
  ∧ (∀ s, s ≠ camera_sid d →
          AdminDashboard.detections st' !! s = AdminDashboard.detections st !! s)
  ∧ AdminDashboard.activeThreats (AdminDashboard.stats st')
    = AdminDashboard.sum_counts (delete (camera_sid d) (AdminDashboard.detections st))
      + count_or_0 d.
Proof.
  simpl. split; [apply lookup_insert_eq|]. split.
  - intros s Hs. by apply lookup_insert_ne.
  - rewrite <- insert_delete_eq. apply sum_counts_insert, lookup_delete_eq.
Qed.

(** Two detections of one camera: only the second counts as active,
    both count in the running total. *)
Example last_detection_wins :
  let quiet := {| camera_id := "cam1"; camera_sid := "1"; frame := Some "BBBB";
                  detections := Some {| count := Some 0; boxes := Some [];
                                        labels := Some []; confidences := Some [] |};
                  timestamp := 1700000001 |} in
  let st := AdminDashboard.run "http://hub:8000"
              [ AdminDashboard.DetectionResult weapon_seen;
                AdminDashboard.DetectionResult weapon_seen;
                AdminDashboard.DetectionResult quiet ]
              AdminDashboard.initial in
  AdminDashboard.activeThreats (AdminDashboard.stats st) = 0
  ∧ AdminDashboard.totalDetections (AdminDashboard.stats st) = 2
  ∧ AdminDashboard.detections st !! "1" = Some quiet.
Proof. vm_compute. done. Qed.

(** X17.  The [detection:result] handler does not look at the
    registry: a detection that arrives after its camera's disconnect is
    stored again under the sid of a camera that is no longer registered,
    and is displayed as soon as the registry is not empty. *)
Theorem late_detection_restores_payload (d : DetectionPayload)
    (st : AdminDashboard.State) :
  let s := camera_sid d in
  let st' := AdminDashboard.on_detection_result d
               (AdminDashboard.on_camera_disconnect s st) in
  Forall (fun cam => AdminDashboard.sid cam ≠ s) (AdminDashboard.cameras st')
  ∧ AdminDashboard.detections st' !! s = Some d
  ∧ (AdminDashboard.cameras st' ≠ [] → AdminDashboard.displayed st' s = Some d).
Proof.
  simpl. split.
  - apply Forall_forall. intros cam Hcam.
    by apply list_elem_of_filter in Hcam as [? _].
  - split; [apply lookup_insert_eq|].
    unfold AdminDashboard.displayed. simpl.
    destruct (filter _ _); [done|]. intros _. apply lookup_insert_eq.
Qed.

(** X18.  While the dashboard has no socket or is not connected,
    [handleDeploy] and [handleStop] only show the alert "Not connected
    to server": no command is emitted, no record changes and no payload
    is removed. *)
Theorem commands_rejected_when_not_connected (cameraSid : string)
    (st : AdminDashboard.State) :
  AdminDashboard.not_ready st = true →
  AdminDashboard.handleDeploy cameraSid st
  = AdminDashboard.alert "Not connected to server" st
  ∧ AdminDashboard.handleStop cameraSid st
    = AdminDashboard.alert "Not connected to server" st
  ∧ AdminDashboard.cameras (AdminDashboard.handleStop cameraSid st)
    = AdminDashboard.cameras st
  ∧ AdminDashboard.detections (AdminDashboard.handleStop cameraSid st)
    = AdminDashboard.detections st
  ∧ AdminDashboard.transport (AdminDashboard.handleStop cameraSid st)
    = AdminDashboard.transport st.
Proof.
  intros Hn. unfold AdminDashboard.handleDeploy, AdminDashboard.handleStop.
  rewrite Hn. done.
Qed.

Lemma commands_rejected_when_not_connected_witness :
  let st := AdminDashboard.run "http://hub:8000"
              [ AdminDashboard.Mount (Some "jwt");
                AdminDashboard.CameraConnected "1" "alice" "cam1";
                AdminDashboard.DetectionResult weapon_seen ]
              AdminDashboard.initial in
  AdminDashboard.handleDeploy "1" st
  = AdminDashboard.alert "Not connected to server" st
  ∧ AdminDashboard.handleStop "1" st
    = AdminDashboard.alert "Not connected to server" st
  ∧ AdminDashboard.cameras (AdminDashboard.handleStop "1" st)
    = AdminDashboard.cameras st
  ∧ AdminDashboard.detections (AdminDashboard.handleStop "1" st)
    = AdminDashboard.detections st
  ∧ AdminDashboard.transport (AdminDashboard.handleStop "1" st)
    = AdminDashboard.transport st.
Proof.
  intros st. apply (commands_rejected_when_not_connected "1" st). reflexivity.
Defined.

(** X19.  Once past its guard, [handleStop] changes the local state at
    once, whether or not the command could be sent: every record with
    the sid is flagged not deployed, the other records and the order of
    the registry are kept, the camera's payload is removed, and the
    statistics are not touched. *)
Theorem handleStop_local_effect (cameraSid : string) (st : AdminDashboard.State) :
  AdminDashboard.not_ready st = false →
  let st' := AdminDashboard.handleStop cameraSid st in
  length (AdminDashboard.cameras st') = length (AdminDashboard.cameras st)
  ∧ (∀ i cam, AdminDashboard.cameras st !! i = Some cam →
       AdminDashboard.cameras st' !! i
       = Some (if decide (AdminDashboard.sid cam = cameraSid)
               then AdminDashboard.set_deployed false cam else cam))
  ∧ Forall (fun cam => AdminDashboard.sid cam = cameraSid →
                       AdminDashboard.deployed cam = false)
           (AdminDashboard.cameras st')
  ∧ AdminDashboard.detections st' = delete cameraSid (AdminDashboard.detections st)
  ∧ AdminDashboard.stats st' = AdminDashboard.stats st.
Proof.
  intros Hn. unfold AdminDashboard.handleStop. rewrite Hn. simpl.
  split; [apply length_map|]. split.
  { intros i cam Hi. change (@map) with (@fmap list _).
    by rewrite list_lookup_fmap, Hi. }
  split; [|done].
  apply Forall_forall. intros cam' Hin.
  apply list_elem_of_In, in_map_iff in Hin as (cam & <- & _).
  destruct (decide (AdminDashboard.sid cam = cameraSid)); [done|].
  intros Heq. done.
Qed.

Lemma handleStop_local_effect_witness :
  let st := AdminDashboard.run "http://hub:8000"
              [ AdminDashboard.Mount (Some "jwt"); AdminDashboard.Connect;
                AdminDashboard.CameraConnected "1" "alice" "cam1";
                AdminDashboard.DeploySuccess "1";
                AdminDashboard.DetectionResult weapon_seen ]
              AdminDashboard.initial in
  let st' := AdminDashboard.handleStop "1" st in
  length (AdminDashboard.cameras st') = length (AdminDashboard.cameras st)
  ∧ (∀ i cam, AdminDashboard.cameras st !! i = Some cam →
       AdminDashboard.cameras st' !! i
       = Some (if decide (AdminDashboard.sid cam = "1")
               then AdminDashboard.set_deployed false cam else cam))
  ∧ Forall (fun cam => AdminDashboard.sid cam = "1" →
                       AdminDashboard.deployed cam = false)
           (AdminDashboard.cameras st')
  ∧ AdminDashboard.detections st' = delete "1" (AdminDashboard.detections st)
  ∧ AdminDashboard.stats st' = AdminDashboard.stats st.
Proof.
  intros st. apply (handleStop_local_effect "1" st). reflexivity.
Defined.

(** X20.  Events that name a sid no record has are absorbed:
    [deploy:success] and [camera:disconnect] for such a sid leave the
    registry as it is, and the disconnect leaves the payload map as it
    is when there is no payload for the sid either. *)
Theorem unknown_sid_ignored (s : string) (st : AdminDashboard.State) :
  Forall (fun cam => AdminDashboard.sid cam ≠ s) (AdminDashboard.cameras st) →
  AdminDashboard.cameras (AdminDashboard.on_deploy_success s st)
  = AdminDashboard.cameras st
  ∧ AdminDashboard.cameras (AdminDashboard.on_camera_disconnect s st)
    = AdminDashboard.cameras st
  ∧ (AdminDashboard.detections st !! s = None →
     AdminDashboard.detections (AdminDashboard.on_camera_disconnect s st)
     = AdminDashboard.detections st).
Proof.
  intros Hs. simpl. split; [by apply mark_unknown_sid|].
  split; [by apply filter_unknown_sid|]. apply delete_id.
Qed.

Lemma unknown_sid_ignored_witness :
  let st := AdminDashboard.run "http://hub:8000"
              [ AdminDashboard.CameraConnected "1" "alice" "cam1" ]
              AdminDashboard.initial in
  AdminDashboard.cameras (AdminDashboard.on_deploy_success "9" st)
  = AdminDashboard.cameras st
  ∧ AdminDashboard.cameras (AdminDashboard.on_camera_disconnect "9" st)
    = AdminDashboard.cameras st
  ∧ (AdminDashboard.detections st !! "9" = None →
     AdminDashboard.detections (AdminDashboard.on_camera_disconnect "9" st)
     = AdminDashboard.detections st).
Proof.
  intros st. apply (unknown_sid_ignored "9" st).
  repeat constructor. simpl. discriminate.
Defined.

(* ================================================================== *)
(** ** Further properties of the camera client *)
(* ================================================================== *)
Section CaptureFacts.
Import CameraClient.
Variable SOCKET_URL : string.
Implicit Types st : State.

(** The three releasing steps of [stopStreaming] touch neither the
    [useState] cells nor the closure. *)
Lemma release_steps_cells st :
  cells (detach_video (stop_stream (stop_interval st))) = cells st
  ∧ closure_deployed (detach_video (stop_stream (stop_interval st)))
    = closure_deployed st.
Proof.
  unfold detach_video. destruct (videoRef _);
    unfold stop_stream; destruct (streamRef _);
    unfold stop_interval; destruct (intervalRef _); done.
Qed.

Lemma stopStreaming_cells st :
  status (stats (cells (stopStreaming st)))
  = (if closure_deployed st then "DEPLOYED" else "IDLE")
  ∧ framesSent (stats (cells (stopStreaming st))) = framesSent (stats (cells st))
  ∧ fps (stats (cells (stopStreaming st))) = fps (stats (cells st))
  ∧ streaming (cells (stopStreaming st)) = false
  ∧ currentDetection (cells (stopStreaming st)) = None.
Proof.
  destruct (release_steps_cells st) as [Hc Hd].
  unfold stopStreaming. simpl. by rewrite Hc, Hd.
Qed.

Lemma stop_stream_tracks st s :
  streamRef (refs st) = Some s →
  tracks_of (stop_stream st) s = map (fun _ => Ended) (tracks_of st s).
Proof.
  intros Hs. unfold stop_stream, tracks_of. rewrite Hs. simpl.
  rewrite lookup_alter_eq. by destruct (streams (browser st) !! s).
Qed.

Lemma stop_all_live n : map (fun _ : Track => Ended) (replicate n Live) = replicate n Ended.
Proof. induction n as [|n IH]; [done|]. simpl. by rewrite IH. Qed.

(** What a fulfilled [getUserMedia] leaves behind. *)
Lemma startStreaming_resolved_effect n st :
  streamRef (refs (startStreaming_resolved n st)) = Some (next_stream (browser st))
  ∧ intervalRef (refs (startStreaming_resolved n st)) = Some (next_timer (browser st))
  ∧ timers (browser (startStreaming_resolved n st))
    = {[ next_timer (browser st) ]}
      ∪ match intervalRef (refs st) with
        | Some h => timers (browser st) ∖ {[ h ]}
        | None => timers (browser st)
        end
  ∧ streams (browser (startStreaming_resolved n st))
    = <[next_stream (browser st) := replicate n Live]> (streams (browser st))
  ∧ cells (startStreaming_resolved n st) = cells st.
Proof.
  unfold startStreaming_resolved.
  destruct (videoRef (refs st)) as [v|] eqn:Hv;
    destruct (intervalRef (refs st)) as [h|] eqn:Hi;
    simpl; rewrite ?Hv, ?Hi; simpl; rewrite ?Hi; done.
Qed.

Lemma timers_exact_owned st : timers_exact st → timers_owned st.
Proof.
  unfold timers_exact, timers_owned. intros Hex h Hh. rewrite Hex in Hh.
  destruct (intervalRef (refs st)) as [h0|].
  - apply elem_of_singleton in Hh. by subst.
  - by apply not_elem_of_empty in Hh.
Qed.

Lemma timers_exact_stopStreaming st : timers_exact st → timers_exact (stopStreaming st).
Proof.
  intros Hex. unfold timers_exact.
  destruct (stopStreaming_releases st) as (-> & _).
  by apply stopStreaming_no_timer, timers_exact_owned.
Qed.

Lemma timers_exact_resolved n st :
  timers_exact st → timers_exact (startStreaming_resolved n st).
Proof.
  intros Hex. unfold timers_exact in *.
  destruct (startStreaming_resolved_effect n st) as (_ & -> & -> & _).
  rewrite Hex. destruct (intervalRef (refs st)).
  - by rewrite difference_diag_L, (right_id_L ∅ (∪)).
  - by rewrite (right_id_L ∅ (∪)).
Qed.

Lemma timers_exact_handle e st :
  timers_exact st → timers_exact (handle SOCKET_URL e st).
Proof.
  intros Hex. destruct e; cbn [handle].
  - unfold mount. destruct (truthy_opt_str token); [|done].
    destruct (Socket.connectSocket _ _ _) as [[h|] tr]; exact Hex.
  - apply timers_exact_stopStreaming in Hex.
    destruct (cleanup_cases st) as [-> | ->]; [exact Hex|].
    rewrite on_disconnect_unfold. by apply timers_exact_stopStreaming.
  - unfold link. by destruct (socket (cells st)).
  - rewrite on_disconnect_unfold. apply timers_exact_stopStreaming.
    unfold link. by destruct (socket (cells st)).
  - unfold on_deploy_assigned, startStreaming. simpl.
    by destruct (mediaDevices (browser st)).
  - rewrite on_deploy_stop_unfold. by apply timers_exact_stopStreaming.
  - done.
  - destruct (pending (browser st)); [done|]. by apply timers_exact_resolved.
  - by destruct (pending (browser st)).
  - destruct (videoRef (refs st)) as [v|]; [|done].
    destruct (onloadedmetadata v); [|done]. by destruct play_ok.
  - unfold render.
    destruct (streaming (cells st) && _); [done|].
    by destruct (videoRef (refs st)).
Qed.

Lemma settled_status (s : string) st :
  status (stats (cells st)) = s →
  s = "IDLE" ∨ s = "CONNECTED" ∨ s = "DEPLOYED" ∨ s = "STREAMING" ∨ s = "ERROR" →
  settled st.
Proof.
  intros Hs Hcase. unfold settled, settled_statuses. rewrite Hs.
  rewrite !elem_of_cons. tauto.
Qed.

Lemma settled_stopStreaming st : settled (stopStreaming st).
Proof.
  destruct (stopStreaming_cells st) as (Hs & _).
  apply (settled_status _ _ Hs). destruct (closure_deployed st); tauto.
Qed.

Lemma settled_handle e st : settled st → settled (handle SOCKET_URL e st).
Proof.
  intros Hst. destruct e; cbn [handle].
  - unfold mount. destruct (truthy_opt_str token); [|done].
    destruct (Socket.connectSocket _ _ _) as [[h|] tr]; exact Hst.
  - destruct (cleanup_cases st) as [-> | ->].
    + exact (settled_stopStreaming st).
    + rewrite on_disconnect_unfold. apply settled_stopStreaming.
  - apply (settled_status "CONNECTED"); [done|tauto].
  - rewrite on_disconnect_unfold. apply settled_stopStreaming.
  - unfold on_deploy_assigned, startStreaming. simpl.
    destruct (mediaDevices (browser st)).
    + apply (settled_status "DEPLOYED"); [done|tauto].
    + apply (settled_status "ERROR"); [done|tauto].
  - rewrite on_deploy_stop_unfold. apply settled_stopStreaming.
  - done.
  - destruct (pending (browser st)) as [|k]; [done|].
    unfold settled.
    destruct (startStreaming_resolved_effect n_tracks (set_pending k st))
      as (_ & _ & _ & _ & ->).
    exact Hst.
  - destruct (pending (browser st)) as [|k]; [done|].
    apply (settled_status "ERROR"); [done|tauto].
  - destruct (videoRef (refs st)) as [v|]; [|done].
    destruct (onloadedmetadata v); [|done].
    destruct play_ok; [|done]. apply (settled_status "STREAMING"); [done|tauto].
  - unfold render.
    destruct (streaming (cells st) && _); [done|].
    by destruct (videoRef (refs st)).
Qed.
End CaptureFacts.

Section LoopFacts.
Variable SOCKET_URL : string.
Implicit Types (st : CaptureLoop.State) (i : CaptureLoop.Tick).

(** The callback assigns none of the handles and nothing the browser
    holds for the capture; of the cells it writes the statistics only. *)
Lemma tick_page i st :
  CameraClient.refs (CaptureLoop.page (CaptureLoop.captureAndSendFrame i st))
  = CameraClient.refs (CaptureLoop.page st)
  ∧ CameraClient.timers
      (CameraClient.browser (CaptureLoop.page (CaptureLoop.captureAndSendFrame i st)))
    = CameraClient.timers (CameraClient.browser (CaptureLoop.page st))
  ∧ CameraClient.streams
      (CameraClient.browser (CaptureLoop.page (CaptureLoop.captureAndSendFrame i st)))
    = CameraClient.streams (CameraClient.browser (CaptureLoop.page st))
  ∧ (CameraClient.status
       (CameraClient.stats
          (CameraClient.cells (CaptureLoop.page (CaptureLoop.captureAndSendFrame i st))))
     = CameraClient.status (CameraClient.stats (CameraClient.cells (CaptureLoop.page st)))
     ∨ CameraClient.status
         (CameraClient.stats
            (CameraClient.cells (CaptureLoop.page (CaptureLoop.captureAndSendFrame i st))))
       = "STREAMING").
Proof.
  unfold CaptureLoop.captureAndSendFrame, CaptureLoop.send_frame.
  destruct (CameraClient.videoRef _); [|by auto].
  destruct (CameraClient.socketRef _); [|by auto].
  destruct (_ && _); [|by auto].
  destruct (_ || _); [by auto|].
  destruct (negb _); [by auto|].
  destruct (CaptureLoop.toDataURL i); [|by auto].
  destruct (Z.leb _ _); simpl; auto.
Qed.

(** The page's handlers keep the counters shown in the statistics. *)
Lemma handle_framesSent e (p : CameraClient.State) :
  CameraClient.framesSent
    (CameraClient.stats (CameraClient.cells (CameraClient.handle SOCKET_URL e p)))
  = CameraClient.framesSent (CameraClient.stats (CameraClient.cells p)).
Proof.
  destruct e; cbn [CameraClient.handle].
  - unfold CameraClient.mount. destruct (truthy_opt_str token); [|done].
    destruct (Socket.connectSocket _ _ _) as [[h|] tr]; done.
  - destruct (stopStreaming_cells p) as (_ & Hf & _).
    destruct (cleanup_cases p) as [-> | ->]; [exact Hf|].
    rewrite on_disconnect_unfold.
    destruct (stopStreaming_cells
                (CameraClient.setStatus "DISCONNECTED"
                   (CameraClient.setDeployed false
                      (CameraClient.set_isConnectedRef false
                         (CameraClient.setConnected false
                            (CameraClient.with_transport Socket.disconnectSocket
                               (CameraClient.stopStreaming p)))))))
      as (_ & -> & _).
    exact Hf.
  - unfold CameraClient.link. by destruct (CameraClient.socket _).
  - rewrite on_disconnect_unfold.
    destruct (stopStreaming_cells
                (CameraClient.setStatus "DISCONNECTED"
                   (CameraClient.setDeployed false
                      (CameraClient.set_isConnectedRef false
                         (CameraClient.setConnected false
                            (CameraClient.link false p)))))) as (_ & -> & _).
    unfold CameraClient.link. by destruct (CameraClient.socket _).
  - unfold CameraClient.on_deploy_assigned, CameraClient.startStreaming. simpl.
    by destruct (CameraClient.mediaDevices _).
  - rewrite on_deploy_stop_unfold.
    by destruct (stopStreaming_cells
                   (CameraClient.setStatus "STOPPED"
                      (CameraClient.setDeployed false p))) as (_ & -> & _).
  - done.
  - destruct (CameraClient.pending _) as [|k]; [done|].
    by destruct (startStreaming_resolved_effect n_tracks (CameraClient.set_pending k p))
      as (_ & _ & _ & _ & ->).
  - by destruct (CameraClient.pending _).
  - destruct (CameraClient.videoRef _) as [v|]; [|done].
    destruct (CameraClient.onloadedmetadata v); [|done]. by destruct play_ok.
  - unfold CameraClient.render.
    destruct (_ && _); [done|]. by destruct (CameraClient.videoRef _).
Qed.

Lemma accounted_tick i st :
  accounted st → accounted (CaptureLoop.captureAndSendFrame i st).
Proof.
  unfold accounted. intros (Hlen & Hsent & Hpos).
  unfold CaptureLoop.captureAndSendFrame, CaptureLoop.send_frame.
  destruct (CameraClient.videoRef _); [|done].
  destruct (CameraClient.socketRef _); [|done].
  destruct (_ && _); [|done].
  destruct (_ || _); [done|].
  destruct (negb _); [done|].
  destruct (CaptureLoop.toDataURL i); [|done].
  destruct (Z.leb _ _); simpl; rewrite length_app; simpl; repeat split; lia.
Qed.

Lemma accounted_handle e st :
  accounted st → accounted (CaptureLoop.handle SOCKET_URL e st).
Proof.
  intros Hacc. destruct e as [e|i]; cbn [CaptureLoop.handle].
  - destruct Hacc as (Hlen & Hsent & Hpos). unfold accounted. simpl.
    rewrite handle_framesSent. done.
  - case_decide; [done|]. by apply accounted_tick.
Qed.

Lemma loop_invariants es : ∀ st,
  accounted st ∧ timers_exact (CaptureLoop.page st) ∧ settled (CaptureLoop.page st) →
  accounted (CaptureLoop.run SOCKET_URL es st)
  ∧ timers_exact (CaptureLoop.page (CaptureLoop.run SOCKET_URL es st))
  ∧ settled (CaptureLoop.page (CaptureLoop.run SOCKET_URL es st)).
Proof.
  induction es as [|e es IH]; intros st Hst; [done|].
  cbn [CaptureLoop.run foldl]. apply IH.
  destruct Hst as (Hacc & Hex & Hset).
  split; [by apply accounted_handle|].
  destruct e as [e|i]; cbn [CaptureLoop.handle].
  - simpl. split; [by apply timers_exact_handle|by apply settled_handle].
  - case_decide; [done|].
    destruct (tick_page i st) as (Hr & Ht & _ & Hs).
    split.
    + unfold timers_exact. by rewrite Hr, Ht.
    + destruct Hs as [Hs|Hs].
      * unfold settled. by rewrite Hs.
      * apply (settled_status _ _ Hs). tauto.
Qed.

Lemma loop_invariants_initial media t0 :
  accounted (CaptureLoop.initial media t0)
  ∧ timers_exact (CaptureLoop.page (CaptureLoop.initial media t0))
  ∧ settled (CaptureLoop.page (CaptureLoop.initial media t0)).
Proof.
  split; [done|]. split; [done|].
  apply (settled_status "IDLE"); [done|tauto].
Qed.
(** Without a mounted [<video>] element the callback returns at once. *)
Lemma tick_without_video i st :
  CameraClient.videoRef (CameraClient.refs (CaptureLoop.page st)) = None →
  CaptureLoop.captureAndSendFrame i st = st.
Proof. unfold CaptureLoop.captureAndSendFrame. by intros ->. Qed.
End LoopFacts.

(** X21.  In every state the camera page reaches from its first render,
    through socket events, settled [getUserMedia] promises, renders and
    timer ticks, the scheduled interval timers are exactly the one held
    in [intervalRef] (none when it is null): a repeated deploy never
    leaves two capture timers running. *)
Theorem one_capture_timer (SOCKET_URL : string) (media : bool) (t0 : Z)
    (es : list CaptureLoop.Event) :
  timers_exact
    (CaptureLoop.page (CaptureLoop.run SOCKET_URL es (CaptureLoop.initial media t0))).
Proof.
  apply (loop_invariants SOCKET_URL es _ (loop_invariants_initial media t0)).
Qed.

(** X22.  Between two events the status shown is one of "IDLE",
    "CONNECTED", "DEPLOYED", "STREAMING" and "ERROR": the "STOPPED" and
    "DISCONNECTED" written by the [deploy:stop] and [disconnect]
    handlers are overwritten by [stopStreaming] before the handler
    returns. *)
Theorem status_never_stopped (SOCKET_URL : string) (media : bool) (t0 : Z)
    (es : list CaptureLoop.Event) :
  let st := CaptureLoop.page
              (CaptureLoop.run SOCKET_URL es (CaptureLoop.initial media t0)) in
  CameraClient.status (CameraClient.stats (CameraClient.cells st)) ∈ settled_statuses
  ∧ CameraClient.status (CameraClient.stats (CameraClient.cells st)) ≠ "STOPPED"
  ∧ CameraClient.status (CameraClient.stats (CameraClient.cells st)) ≠ "DISCONNECTED".
Proof.
  destruct (loop_invariants SOCKET_URL es _ (loop_invariants_initial media t0))
    as (_ & _ & Hset).
  simpl. split; [exact Hset|].
  unfold settled, settled_statuses in Hset.
  rewrite !elem_of_cons, elem_of_nil in Hset.
  split; intros Heq; rewrite Heq in Hset;
    destruct Hset as [?|[?|[?|[?|[?|[]]]]]]; discriminate.
Qed.

(** The status after a stop command from the initial page. *)
Example status_after_stop :
  let st := CameraClient.run "http://hub:8000"
              [ CameraClient.Mount (Some "jwt"); CameraClient.Connect;
                CameraClient.DeployAssigned; CameraClient.MediaResolved 1;
                CameraClient.DeployStop ]
              (CameraClient.initial true) in
  CameraClient.status (CameraClient.stats (CameraClient.cells st)) = "IDLE".
Proof. reflexivity. Qed.

(** X23.  Acquisition and release match: a fulfilled [getUserMedia]
    stores the new stream in [streamRef] with all its tracks live and
    schedules one timer held in [intervalRef]; the [stopStreaming] that
    follows ends every one of those tracks, unschedules that timer and
    nulls both handles. *)
Theorem acquire_then_release (n : nat) (st : CameraClient.State) :
  let s := CameraClient.next_stream (CameraClient.browser st) in
  let h := CameraClient.next_timer (CameraClient.browser st) in
  let st1 := CameraClient.startStreaming_resolved n st in
  let st2 := CameraClient.stopStreaming st1 in
  CameraClient.streamRef (CameraClient.refs st1) = Some s
  ∧ CameraClient.tracks_of st1 s = replicate n CameraClient.Live
  ∧ CameraClient.intervalRef (CameraClient.refs st1) = Some h
  ∧ h ∈ CameraClient.timers (CameraClient.browser st1)
  ∧ CameraClient.tracks_of st2 s = replicate n CameraClient.Ended
  ∧ cancelled st2 h
  ∧ CameraClient.streamRef (CameraClient.refs st2) = None
  ∧ CameraClient.intervalRef (CameraClient.refs st2) = None.
Proof.
  intros s h st1 st2.
  destruct (startStreaming_resolved_effect n st) as (Hs & Hi & Ht & Hstr & _).
  fold st1 in Hs, Hi, Ht, Hstr. fold s in Hs, Hstr. fold h in Hi, Ht.
  assert (CameraClient.tracks_of st1 s = replicate n CameraClient.Live) as Hlive.
  { unfold CameraClient.tracks_of. by rewrite Hstr, lookup_insert_eq. }
  destruct (stopStreaming_releases st1) as (Hi2 & Hc & Hs2 & _).
  split; [exact Hs|]. split; [exact Hlive|]. split; [exact Hi|].
  split.
  { rewrite Ht. apply elem_of_union_l. by apply elem_of_singleton. }
  split.
  { destruct (stop_interval_effect st1) as (_ & _ & _ & Hsr & Hstreams).
    destruct (detach_video_effect
                (CameraClient.stop_stream (CameraClient.stop_interval st1)))
      as (_ & _ & Hb).
    assert (CameraClient.tracks_of (CameraClient.stop_interval st1) s
            = CameraClient.tracks_of st1 s) as Hsame.
    { unfold CameraClient.tracks_of. by rewrite Hstreams. }
    unfold st2, CameraClient.stopStreaming, CameraClient.tracks_of. simpl.
    rewrite Hb.
    change (default [] (CameraClient.streams
                          (CameraClient.browser
                             (CameraClient.stop_stream
                                (CameraClient.stop_interval st1))) !! s))
      with (CameraClient.tracks_of
              (CameraClient.stop_stream (CameraClient.stop_interval st1)) s).
    rewrite stop_stream_tracks by congruence.
    by rewrite Hsame, Hlive, stop_all_live. }
  split; [by apply Hc|]. split; [exact Hs2|exact Hi2].
Qed.

(** X24.  [captureAndSendFrame] returns without any effect (no frame
    sent, no counter or statistic changed) when the [<video>] element or
    the canvas is not mounted, the page has no socket or is not
    connected, the video is paused, ended or has no width yet, or the
    canvas gives no 2d context. *)
Theorem tick_guards (i : CaptureLoop.Tick) (st : CaptureLoop.State) :
  not_capturing i st → CaptureLoop.captureAndSendFrame i st = st.
Proof.
  unfold not_capturing, CaptureLoop.captureAndSendFrame.
  intros Hg.
  destruct (CameraClient.videoRef _) as [v|]; [|done].
  destruct (CameraClient.socketRef _) as [h|]; [|done].
  destruct (CaptureLoop.canvas_present i) eqn:Hc,
           (CameraClient.isConnectedRef _) eqn:Hconn; simpl; try done.
  destruct (CaptureLoop.video_paused i) eqn:Hp; [done|].
  destruct (CaptureLoop.video_ended i) eqn:He; [done|].
  destruct (Z.eqb_spec (CaptureLoop.videoWidth i) 0) as [Hw|Hw]; [done|].
  destruct (CaptureLoop.context_2d i) eqn:H2d; [|done].
  exfalso. destruct Hg as [?|[?|[?|[?|[?|[?|[?|?]]]]]]]; done.
Qed.

Lemma tick_guards_witness :
  let i := {| CaptureLoop.canvas_present := true; CaptureLoop.video_paused := false;
              CaptureLoop.video_ended := false; CaptureLoop.videoWidth := 0;
              CaptureLoop.videoHeight := 0; CaptureLoop.context_2d := true;
              CaptureLoop.toDataURL := Some "data:,"; CaptureLoop.now := 5000 |} in
  let st := CaptureLoop.run "http://hub:8000"
              [ CaptureLoop.Page (CameraClient.Mount (Some "jwt"));
                CaptureLoop.Page CameraClient.Connect;
                CaptureLoop.Page CameraClient.DeployAssigned;
                CaptureLoop.Page (CameraClient.MediaResolved 1) ]
              (CaptureLoop.initial true 0) in
  CaptureLoop.captureAndSendFrame i st = st.
Proof.
  intros i st. apply (tick_guards i st).
  do 6 right. left. reflexivity.
Defined.

(** X25.  The frame counters add up in every reachable state: the
    number of [camera_frame] messages handed to [socket.emit] is the
    reported total plus the count of the running second, and the
    [framesSent] statistic is that reported total, so it never exceeds
    the frames actually sent. *)
Theorem frames_accounted (SOCKET_URL : string) (media : bool) (t0 : Z)
    (es : list CaptureLoop.Event) :
  let st := CaptureLoop.run SOCKET_URL es (CaptureLoop.initial media t0) in
  Z.of_nat (length (CaptureLoop.emitted st))
  = CaptureLoop.totalFramesSentRef st + CaptureLoop.frameCountRef st
  ∧ CameraClient.framesSent (CameraClient.stats (CameraClient.cells (CaptureLoop.page st)))
    = CaptureLoop.totalFramesSentRef st
  ∧ (CameraClient.framesSent
       (CameraClient.stats (CameraClient.cells (CaptureLoop.page st)))
     ≤ Z.of_nat (length (CaptureLoop.emitted st)))%Z.
Proof.
  destruct (loop_invariants SOCKET_URL es _ (loop_invariants_initial media t0))
    as ((Hlen & Hsent & Hpos) & _).
  simpl. split; [exact Hlen|]. split; [exact Hsent|]. lia.
Qed.

(** Five frames in 1.1 seconds: four counted in the first second and
    reported at the rollover together with the fifth. *)
Example fps_rollover :
  let shot := fun t =>
    CaptureLoop.Fire
      {| CaptureLoop.canvas_present := true; CaptureLoop.video_paused := false;
         CaptureLoop.video_ended := false; CaptureLoop.videoWidth := 640;
         CaptureLoop.videoHeight := 480; CaptureLoop.context_2d := true;
         CaptureLoop.toDataURL := Some "data:image/jpeg;base64,AAAA";
         CaptureLoop.now := t |} in
  let st := CaptureLoop.run "http://hub:8000"
              [ CaptureLoop.Page (CameraClient.Mount (Some "jwt"));
                CaptureLoop.Page CameraClient.Connect;
                CaptureLoop.Page CameraClient.DeployAssigned;
                CaptureLoop.Page (CameraClient.MediaResolved 1);
                shot 200; shot 400; shot 600; shot 800; shot 1100 ]
              (CaptureLoop.initial true 0) in
  map snd (CaptureLoop.emitted st) = replicate 5 (Some "AAAA")
  ∧ CameraClient.fps (CameraClient.stats (CameraClient.cells (CaptureLoop.page st))) = 5
  ∧ CameraClient.framesSent
      (CameraClient.stats (CameraClient.cells (CaptureLoop.page st))) = 5
  ∧ CaptureLoop.frameCountRef st = 0
  ∧ CaptureLoop.lastFpsUpdate st = 1100.
Proof. vm_compute. done. Qed.

(** X26.  A tick cannot stop the loop or release the device:
    [captureAndSendFrame] always leaves the handles, the scheduled
    timers and the streams as they are.  When drawing or encoding
    throws, the exception is caught: no frame is sent, no counter or
    statistic changes, and at most one [console.error] entry is added. *)
Theorem tick_failure_contained (i : CaptureLoop.Tick) (st : CaptureLoop.State) :
  let st' := CaptureLoop.captureAndSendFrame i st in
  CameraClient.refs (CaptureLoop.page st') = CameraClient.refs (CaptureLoop.page st)
  ∧ CameraClient.timers (CameraClient.browser (CaptureLoop.page st'))
    = CameraClient.timers (CameraClient.browser (CaptureLoop.page st))
  ∧ CameraClient.streams (CameraClient.browser (CaptureLoop.page st'))
    = CameraClient.streams (CameraClient.browser (CaptureLoop.page st))
  ∧ (CaptureLoop.toDataURL i = None →
     CaptureLoop.emitted st' = CaptureLoop.emitted st
     ∧ CaptureLoop.frameCountRef st' = CaptureLoop.frameCountRef st
     ∧ CaptureLoop.totalFramesSentRef st' = CaptureLoop.totalFramesSentRef st
     ∧ CameraClient.cells (CaptureLoop.page st') = CameraClient.cells (CaptureLoop.page st)
     ∧ (st' = st
        ∨ CameraClient.errors (CameraClient.browser (CaptureLoop.page st'))
          = (CameraClient.errors (CameraClient.browser (CaptureLoop.page st))
             ++ ["❌ Error in captureAndSendFrame:"])%list)).
Proof.
  destruct (tick_page i st) as (Hr & Ht & Hs & _).
  cbn zeta. split; [exact Hr|]. split; [exact Ht|]. split; [exact Hs|].
  intros Hurl. unfold CaptureLoop.captureAndSendFrame. rewrite Hurl.
  destruct (CameraClient.videoRef _); [|by auto 10].
  destruct (CameraClient.socketRef _); [|by auto 10].
  destruct (_ && _); [|by auto 10].
  destruct (_ || _); [by auto 10|].
  destruct (negb _); [by auto 10|].
  simpl. auto 10.
Qed.

(** A throwing encoder in the middle of a stream. *)
Example tick_failure_example :
  let i := {| CaptureLoop.canvas_present := true; CaptureLoop.video_paused := false;
              CaptureLoop.video_ended := false; CaptureLoop.videoWidth := 640;
              CaptureLoop.videoHeight := 480; CaptureLoop.context_2d := true;
              CaptureLoop.toDataURL := None; CaptureLoop.now := 5000 |} in
  let st := CaptureLoop.run "http://hub:8000"
              [ CaptureLoop.Page (CameraClient.Mount (Some "jwt"));
                CaptureLoop.Page CameraClient.Connect;
                CaptureLoop.Page CameraClient.DeployAssigned;
                CaptureLoop.Page (CameraClient.MediaResolved 1);
                CaptureLoop.Fire i ]
              (CaptureLoop.initial true 0) in
  CaptureLoop.emitted st = []
  ∧ CameraClient.errors (CameraClient.browser (CaptureLoop.page st))
    = ["❌ Error in captureAndSendFrame:"]
  ∧ CameraClient.timers (CameraClient.browser (CaptureLoop.page st)) = {[ 1%positive ]}.
Proof. vm_compute. done. Qed.

(** X27.  Once a detection has arrived while [streaming] is set and
    React has rendered, the preview shows the detection tile in place of
    the [<video>] element, [videoRef.current] is null, and every tick
    that follows returns at its first guard: no further frame is sent,
    whatever the timer callback finds. *)
Theorem preview_tile_stalls_capture (SOCKET_URL : string) (d : DetectionPayload)
    (ticks : list CaptureLoop.Tick) (st : CaptureLoop.State) :
  CameraClient.streaming (CameraClient.cells (CaptureLoop.page st)) = true →
  let shown := CaptureLoop.run SOCKET_URL
                 [ CaptureLoop.Page (CameraClient.DetectionResult d);
                   CaptureLoop.Page CameraClient.Render ] st in
  CameraClient.videoRef (CameraClient.refs (CaptureLoop.page shown)) = None
  ∧ CaptureLoop.run SOCKET_URL (map CaptureLoop.Fire ticks) shown = shown.
Proof.
  intros Hstr shown.
  assert (CameraClient.videoRef (CameraClient.refs (CaptureLoop.page shown)) = None)
    as Hnone.
  { unfold shown. simpl. unfold CameraClient.render. simpl. by rewrite Hstr. }
  split; [exact Hnone|].
  induction ticks as [|i ticks IH]; [done|].
  cbn [map CaptureLoop.run foldl CaptureLoop.handle].
  replace (if decide _ then shown else CaptureLoop.captureAndSendFrame i shown)
    with shown; [exact IH|].
  case_decide; [done|]. symmetry. by apply tick_without_video.
Qed.

Lemma preview_tile_stalls_capture_witness :
  let shot :=
    {| CaptureLoop.canvas_present := true; CaptureLoop.video_paused := false;
       CaptureLoop.video_ended := false; CaptureLoop.videoWidth := 640;
       CaptureLoop.videoHeight := 480; CaptureLoop.context_2d := true;
       CaptureLoop.toDataURL := Some "data:image/jpeg;base64,AAAA";
       CaptureLoop.now := 5000 |} in
  let st := CaptureLoop.run "http://hub:8000"
              [ CaptureLoop.Page (CameraClient.Mount (Some "jwt"));
                CaptureLoop.Page CameraClient.Connect;
                CaptureLoop.Page CameraClient.DeployAssigned;
                CaptureLoop.Page (CameraClient.MediaResolved 1);
                CaptureLoop.Page (CameraClient.LoadedMetadata true);
                CaptureLoop.Fire shot ]
              (CaptureLoop.initial true 0) in
  let shown := CaptureLoop.run "http://hub:8000"
                 [ CaptureLoop.Page (CameraClient.DetectionResult weapon_seen);
                   CaptureLoop.Page CameraClient.Render ] st in
  length (CaptureLoop.emitted st) = 1%nat
  ∧ CameraClient.videoRef (CameraClient.refs (CaptureLoop.page shown)) = None
  ∧ CaptureLoop.run "http://hub:8000" (map CaptureLoop.Fire [shot; shot; shot]) shown
    = shown.
Proof.
  intros shot st shown. split; [reflexivity|].
  apply (preview_tile_stalls_capture "http://hub:8000" weapon_seen [shot; shot; shot] st).
  reflexivity.
Defined.

Section FrameEncoding.
Import Stdlib.Strings.Ascii.

Lemma base64_char_not_comma a : base64_char a = true → Ascii.eqb a "," = false.
Proof.
  intros Ha. destruct (Ascii.eqb_spec a ","%char) as [->|]; [|done].
  discriminate Ha.
Qed.

(** A base64 string has no comma to split at. *)
Lemma split_comma_base64 b :
  base64_string b = true → CaptureLoop.split_comma b = [b].
Proof.
  induction b as [|a b IH]; [done|].
  cbn [base64_string]. intros [Ha Hb]%andb_prop.
  cbn [CaptureLoop.split_comma].
  by rewrite (base64_char_not_comma a Ha), (IH Hb).
Qed.

(** [split] always returns at least one piece. *)
Lemma split_comma_nonempty s : CaptureLoop.split_comma s ≠ [].
Proof.
  destruct s as [|a s]; [done|]. cbn [CaptureLoop.split_comma].
  destruct (Ascii.eqb a ","); [done|]. by destruct (CaptureLoop.split_comma s).
Qed.

(** Splitting after a piece that has no comma itself. *)
Lemma split_comma_after p rest :
  CaptureLoop.split_comma p = [p] →
  CaptureLoop.split_comma (p ++ String "," rest) = p :: CaptureLoop.split_comma rest.
Proof.
  induction p as [|a p IH]; [done|].
  change (String a p ++ String "," rest) with (String a (p ++ String "," rest)).
  cbn [CaptureLoop.split_comma].
  destruct (Ascii.eqb a ","); [discriminate|].
  destruct (CaptureLoop.split_comma p) as [|piece pieces] eqn:Hp.
  - by destruct (split_comma_nonempty p).
  - intros [= -> ->]. by rewrite IH.
Qed.

(** Nor a colon, so it does not look like a data URL. *)
Lemma base64_not_data_url b :
  base64_string b = true → String.prefix "data:image" b = false.
Proof.
  intros Hb.
  destruct b as [|a1 [|a2 [|a3 [|a4 [|a5 b]]]]]; try reflexivity;
    cbn [String.prefix];
    repeat (match goal with
            | |- context [ascii_dec ?x ?y] => destruct (ascii_dec x y) as [<-|]
            end; try reflexivity).
  discriminate Hb.
Qed.
(** What [captureAndSendFrame] sends for a JPEG data URL. *)
Lemma base64data_jpeg b :
  base64_string b = true →
  CaptureLoop.base64data ("data:image/jpeg;base64," ++ b) = Some b.
Proof.
  intros Hb. unfold CaptureLoop.base64data.
  change ("data:image/jpeg;base64," ++ b)
    with ("data:image/jpeg;base64" ++ String "," b).
  rewrite split_comma_after by reflexivity.
  by rewrite (split_comma_base64 b Hb).
Qed.
End FrameEncoding.

(** What a tick sends when no guard stops it and the encoder returns. *)
Lemma tick_sends (i : CaptureLoop.Tick) (st : CaptureLoop.State) (dataUrl : string) :
  ¬ not_capturing i st →
  CaptureLoop.toDataURL i = Some dataUrl →
  ∃ h, CameraClient.socketRef (CameraClient.refs (CaptureLoop.page st)) = Some h
       ∧ CaptureLoop.emitted (CaptureLoop.captureAndSendFrame i st)
         = (CaptureLoop.emitted st ++ [(h, CaptureLoop.base64data dataUrl)])%list.
Proof.
  unfold not_capturing, CaptureLoop.captureAndSendFrame. intros Hg Hurl.
  destruct (CameraClient.videoRef _) as [v|]; [|exfalso; apply Hg; by left].
  destruct (CameraClient.socketRef _) as [h|]; [|exfalso; apply Hg; by right; left].
  destruct (CameraClient.isConnectedRef _);
    [|exfalso; apply Hg; by right; right; left].
  destruct (CaptureLoop.canvas_present i);
    [|exfalso; apply Hg; by right; right; right; left].
  destruct (CaptureLoop.video_paused i);
    [exfalso; apply Hg; by right; right; right; right; left|].
  destruct (CaptureLoop.video_ended i);
    [exfalso; apply Hg; by right; right; right; right; right; left|].
  destruct (Z.eqb_spec (CaptureLoop.videoWidth i) 0) as [Hw|Hw];
    [exfalso; apply Hg; by right; right; right; right; right; right; left|].
  destruct (CaptureLoop.context_2d i);
    [|exfalso; apply Hg; by right; right; right; right; right; right; right].
  simpl. rewrite Hurl. exists h. split; [done|].
  unfold CaptureLoop.send_frame. by destruct (Z.leb _ _).
Qed.

(** X28.  The frame survives the trip from the camera to a tile: when
    no guard stops the tick and the canvas encodes to a JPEG data URL
    with a non-empty base64 body, [captureAndSendFrame] hands
    [socket.emit] one [camera_frame] message whose [frame] is the body
    alone ([dataUrl.split(',')[1]]); and the rendering effect of a
    tile, given a payload with that [frame], hands the decoder the very
    data URL the camera encoded. *)
Theorem frame_round_trip (b : string) (i : CaptureLoop.Tick)
    (st : CaptureLoop.State) (c : VideoTile.Canvas) :
  base64_string b = true → b ≠ "" →
  ¬ not_capturing i st →
  CaptureLoop.toDataURL i = Some ("data:image/jpeg;base64," ++ b) →
  VideoTile.has_2d c = true →
  ∃ h, CameraClient.socketRef (CameraClient.refs (CaptureLoop.page st)) = Some h
       ∧ CaptureLoop.emitted (CaptureLoop.captureAndSendFrame i st)
         = (CaptureLoop.emitted st ++ [(h, Some b)])%list
       ∧ ∀ d, last (CaptureLoop.emitted (CaptureLoop.captureAndSendFrame i st))
              = Some (h, frame d) →
              VideoTile.image_source (Some d) (Some c)
              = Some ("data:image/jpeg;base64," ++ b).
Proof.
  intros Hb Hne Hg Hurl H2d.
  destruct (tick_sends i st _ Hg Hurl) as (h & Hh & Hsent).
  rewrite (base64data_jpeg b Hb) in Hsent.
  exists h. split; [exact Hh|]. split; [exact Hsent|].
  intros d. rewrite Hsent, last_snoc. intros [= Hframe].
  unfold VideoTile.image_source. rewrite <- Hframe, H2d.
  destruct b as [|a b]; [done|].
  cbn [truthy_str andb]. by rewrite base64_not_data_url.
Qed.

Lemma frame_round_trip_witness :
  let i := {| CaptureLoop.canvas_present := true; CaptureLoop.video_paused := false;
              CaptureLoop.video_ended := false; CaptureLoop.videoWidth := 640;
              CaptureLoop.videoHeight := 480; CaptureLoop.context_2d := true;
              CaptureLoop.toDataURL := Some "data:image/jpeg;base64,/9j/4AAQ";
              CaptureLoop.now := 5000 |} in
  let st := CaptureLoop.run "http://hub:8000"
              [ CaptureLoop.Page (CameraClient.Mount (Some "jwt"));
                CaptureLoop.Page CameraClient.Connect;
                CaptureLoop.Page CameraClient.DeployAssigned;
                CaptureLoop.Page (CameraClient.MediaResolved 1) ]
              (CaptureLoop.initial true 0) in
  let c := {| VideoTile.width := 300; VideoTile.height := 150;
              VideoTile.has_2d := true; VideoTile.ctx := VideoTile.default_ctx;
              VideoTile.painted := [] |} in
  ∃ h, CameraClient.socketRef (CameraClient.refs (CaptureLoop.page st)) = Some h
       ∧ CaptureLoop.emitted (CaptureLoop.captureAndSendFrame i st)
         = (CaptureLoop.emitted st ++ [(h, Some "/9j/4AAQ")])%list
       ∧ ∀ d, last (CaptureLoop.emitted (CaptureLoop.captureAndSendFrame i st))
              = Some (h, frame d) →
              VideoTile.image_source (Some d) (Some c)
              = Some "data:image/jpeg;base64,/9j/4AAQ".
Proof.
  intros i st c.
  apply (frame_round_trip "/9j/4AAQ" i st c);
    [reflexivity|discriminate| |reflexivity|reflexivity].
  intros [H|[H|[H|[H|[H|[H|[H|H]]]]]]]; vm_compute in H; discriminate H.
Defined.

(** A canvas without size encodes to ["data:,"]: the frame sent is the
    empty string, which the rendering effect of a tile skips. *)
Example empty_data_url :
  CaptureLoop.base64data "data:," = Some ""
  ∧ ∀ decode measureText percent c,
      VideoTile.renderFrame decode measureText percent
        (Some {| camera_id := "cam1"; camera_sid := "1"; frame := Some "";
                 detections := None; timestamp := 0 |}) (Some c) = None.
Proof. split; [reflexivity|]. intros. reflexivity. Qed.
